(** * jahia-reporter, [zencrepes] command: a shallow embedding

    The command of [src/commands/zencrepes.ts] reads a test report, derives
    an identifier for the tested element from its name, version and
    dependencies, builds the ZenCrepes payload, signs its JSON text with
    HMAC-SHA1 and posts it to a webhook.

    JavaScript values are modelled as follows.
    - A string is the list of its UTF-16 code units ([list N]); the regular
      expression of [prepString] and the relational operators [<] and [>]
      both work on code units.
    - A byte sequence (a [Buffer], a [Uint8Array]) is a [list N] too, every
      element below 256.
    - An array of dependencies lives in a store and is handled through its
      reference: [Array.prototype.push] and [Array.prototype.sort] change
      the stored array, and every holder of the reference sees the change.
    - An exception is the [inl] result of a computation; effects performed
      before it (log lines, requests) stay in the store.
    - The dependencies and the version file are first taken with the types
      the source declares for them; the module [Untyped] is the command on
      the JSON values [JSON.parse] may yield, where an operation on a value
      of another shape throws a [TypeError]. The two agree on values of the
      declared types (last section). *)

From Stdlib Require Import NArith ZArith List String Ascii Lia Bool.
From Stdlib Require Import DecimalString.
From stdpp Require Import base option list sorting.
Import ListNotations.

Local Open Scope N_scope.

Abbreviation jsstring := (list N).
Abbreviation bytes := (list N).

(** A string literal of the source, as code units. *)
Definition js (s : string) : jsstring :=
  List.map N_of_ascii (list_ascii_of_string s).

(** ** [prepString] *)

Definition is_digit (c : N) : bool := (48 <=? c) && (c <=? 57).
Definition is_upper (c : N) : bool := (65 <=? c) && (c <=? 90).
Definition is_lower (c : N) : bool := (97 <=? c) && (c <=? 122).

(** The character class [[^0-9a-zA-Z]]. *)
Definition non_alnum (c : N) : bool :=
  negb (is_digit c || is_lower c || is_upper c).

(** [s.replace(/[^0-9a-zA-Z]/g, '')]: every match is replaced by the empty
    string. *)
Definition replace_non_alnum (s : jsstring) : jsstring :=
  List.filter (fun c => negb (non_alnum c)) s.

(** [String.prototype.toLowerCase]. Only the ASCII range is modelled: it is
    applied to the result of [replace_non_alnum], which holds no other
    code unit. *)
Definition lower_unit (c : N) : N := if is_upper c then c + 32 else c.
Definition toLowerCase (s : jsstring) : jsstring := List.map lower_unit s.

Definition prepString (s : jsstring) : jsstring :=
  toLowerCase (replace_non_alnum s).

(** ** Comparison of strings and of dependencies *)

(** [a < b] on two strings: lexicographic on code units, a proper prefix is
    smaller. *)
Fixpoint js_lt (a b : jsstring) : bool :=
  match a, b with
  | _, [] => false
  | [], _ :: _ => true
  | x :: a', y :: b' =>
      if x <? y then true else if y <? x then false else js_lt a' b'
  end.

(** [a > b]. *)
Definition js_gt (a b : jsstring) : bool := js_lt b a.

Record ZenCrepesDependency : Type := mkDep {
  d_name : jsstring;
  d_version : jsstring
}.

#[global] Instance ZenCrepesDependency_eq_dec : EqDecision ZenCrepesDependency.
Proof. solve_decision. Defined.

(** The comparison function given to [sort] in [getId]. *)
Definition compareDeps (a b : ZenCrepesDependency) : Z :=
  if js_gt (d_name a) (d_name b) then 1%Z
  else if js_lt (d_name a) (d_name b) then (-1)%Z
  else if js_gt (d_version a) (d_version b) then 1%Z
  else if js_lt (d_version a) (d_version b) then (-1)%Z
  else 0%Z.

(** [Array.prototype.sort(comparefn)] on the elements of an array: a stable
    sort, here by insertion. [sort_unique] below shows that with
    [compareDeps] no other sorting algorithm could give another result. *)
Section ArraySort.
Context {A : Type} (comparefn : A -> A -> Z).

Fixpoint sort_insert (x : A) (l : list A) : list A :=
  match l with
  | [] => [x]
  | y :: l' =>
      if (comparefn x y <=? 0)%Z then x :: y :: l'
      else y :: sort_insert x l'
  end.

Fixpoint sort_elements (l : list A) : list A :=
  match l with
  | [] => []
  | x :: l' => sort_insert x (sort_elements l')
  end.
End ArraySort.

(** ** SHA-1, HMAC and version 5 UUIDs

    [crypto.createHmac('sha1', key)] and [uuidv5] come from Node and from
    the [uuid] package; they are written out (FIPS 180-4, RFC 2104,
    RFC 4122) so that the model computes the values the program sends. *)

Definition w32 (x : N) : N := x mod 2 ^ 32.

Definition rotl32 (n x : N) : N :=
  w32 (N.lor (N.shiftl x n) (N.shiftr x (32 - n))).

Definition lnot32 (x : N) : N := N.lxor x 0xffffffff.

Fixpoint be_bytes (n : nat) (x : N) : bytes :=
  match n with
  | O => []
  | S n' => N.shiftr x (8 * N.of_nat n') mod 256 :: be_bytes n' x
  end.

Fixpoint be_words (bs : bytes) : list N :=
  match bs with
  | a :: b :: c :: d :: rest =>
      N.lor (N.shiftl a 24) (N.lor (N.shiftl b 16) (N.lor (N.shiftl c 8) d))
      :: be_words rest
  | _ => []
  end.

Definition sha1_pad (msg : bytes) : bytes :=
  let len := Z.of_nat (length msg) in
  let zeros := Z.to_nat ((55 - len) mod 64)%Z in
  msg ++ [0x80] ++ repeat 0 zeros ++ be_bytes 8 (8 * Z.to_N len).

Fixpoint sha1_schedule (n : nat) (w : list N) : list N :=
  match n with
  | O => w
  | S n' =>
      let i := length w in
      let at_ k := nth (i - k)%nat w 0 in
      sha1_schedule n'
        (w ++ [rotl32 1 (N.lxor (N.lxor (at_ 3%nat) (at_ 8%nat))
                                (N.lxor (at_ 14%nat) (at_ 16%nat)))])
  end.

Definition sha1_f (t : nat) (b c d : N) : N :=
  if (t <? 20)%nat then N.lor (N.land b c) (N.land (lnot32 b) d)
  else if (t <? 40)%nat then N.lxor (N.lxor b c) d
  else if (t <? 60)%nat then
    N.lor (N.lor (N.land b c) (N.land b d)) (N.land c d)
  else N.lxor (N.lxor b c) d.

Definition sha1_k (t : nat) : N :=
  if (t <? 20)%nat then 0x5a827999
  else if (t <? 40)%nat then 0x6ed9eba1
  else if (t <? 60)%nat then 0x8f1bbcdc
  else 0xca62c1d6.

Definition sha1_state : Type := N * N * N * N * N.

Definition sha1_round (st : sha1_state) (tw : nat * N) : sha1_state :=
  let '(a, b, c, d, e) := st in
  let '(t, w) := tw in
  (w32 (rotl32 5 a + sha1_f t b c d + e + sha1_k t + w),
   a, rotl32 30 b, c, d).

Definition sha1_block (h : sha1_state) (block : bytes) : sha1_state :=
  let w := sha1_schedule 64 (be_words block) in
  let '(a, b, c, d, e) := fold_left sha1_round (combine (seq 0 80) w) h in
  let '(h0, h1, h2, h3, h4) := h in
  (w32 (h0 + a), w32 (h1 + b), w32 (h2 + c), w32 (h3 + d), w32 (h4 + e)).

Fixpoint sha1_blocks (n : nat) (h : sha1_state) (msg : bytes) : sha1_state :=
  match n with
  | O => h
  | S n' => sha1_blocks n' (sha1_block h (firstn 64 msg)) (skipn 64 msg)
  end.

Definition sha1 (msg : bytes) : bytes :=
  let padded := sha1_pad msg in
  let '(h0, h1, h2, h3, h4) :=
    sha1_blocks (length padded / 64)
      (0x67452301, 0xefcdab89, 0x98badcfe, 0x10325476, 0xc3d2e1f0) padded in
  be_bytes 4 h0 ++ be_bytes 4 h1 ++ be_bytes 4 h2 ++ be_bytes 4 h3
  ++ be_bytes 4 h4.

Definition hmac_sha1 (key msg : bytes) : bytes :=
  let key' := if (64 <? length key)%nat then sha1 key else key in
  let block := key' ++ repeat 0 (64 - length key') in
  sha1 (List.map (N.lxor 0x5c) block
        ++ sha1 (List.map (N.lxor 0x36) block ++ msg)).

Definition hex_digit (n : N) : N := if n <? 10 then 48 + n else 87 + n.

(** Lower-case hexadecimal, two digits a byte. *)
Definition hex (bs : bytes) : jsstring :=
  flat_map (fun b => [hex_digit (b / 16); hex_digit (b mod 16)]) bs.


(** ** UTF-8 *)

Definition is_high_surrogate (c : N) : bool := (0xd800 <=? c) && (c <=? 0xdbff).
Definition is_low_surrogate (c : N) : bool := (0xdc00 <=? c) && (c <=? 0xdfff).

Definition utf8_scalar (cp : N) : bytes :=
  if cp <? 0x80 then [cp]
  else if cp <? 0x800 then [0xc0 + cp / 64; 0x80 + cp mod 64]
  else if cp <? 0x10000 then
    [0xe0 + cp / 4096; 0x80 + (cp / 64) mod 64; 0x80 + cp mod 64]
  else
    [0xf0 + cp / 262144; 0x80 + (cp / 4096) mod 64;
     0x80 + (cp / 64) mod 64; 0x80 + cp mod 64].

(** The UTF-8 bytes of each character of a string; [None] stands for a
    surrogate code unit that has no partner. *)
Fixpoint utf8_units (s : jsstring) : list (option bytes) :=
  match s with
  | [] => []
  | c :: rest =>
      if is_high_surrogate c then
        match rest with
        | lo :: rest' =>
            if is_low_surrogate lo then
              Some (utf8_scalar (0x10000 + (c - 0xd800) * 1024 + (lo - 0xdc00)))
              :: utf8_units rest'
            else None :: utf8_units rest
        | [] => [None]
        end
      else if is_low_surrogate c then None :: utf8_units rest
      else Some (utf8_scalar c) :: utf8_units rest
  end.

(** Node's encoding of a string as UTF-8 ([Buffer.from(s, 'utf8')],
    [hmac.update(s)]): a lone surrogate becomes U+FFFD. *)
Definition utf8_encode (s : jsstring) : bytes :=
  concat (List.map (fun u => default [0xef; 0xbf; 0xbd] u) (utf8_units s)).

(** [stringToBytes] of the [uuid] package,
    [unescape(encodeURIComponent(str))]: a lone surrogate makes
    [encodeURIComponent] throw. *)
Definition stringToBytes (s : jsstring) : option bytes :=
  (fun l => concat l) <$> mapM id (utf8_units s).

(** [buf.toString()]: UTF-8 decoding. A byte that does not start a
    well-formed sequence decodes to U+FFFD. *)
Definition is_cont (b : N) : bool := (0x80 <=? b) && (b <? 0xc0).

Definition utf16_scalar (cp : N) : jsstring :=
  if cp <? 0x10000 then [cp]
  else [0xd800 + (cp - 0x10000) / 1024; 0xdc00 + (cp - 0x10000) mod 1024].

Fixpoint utf8_decode (bs : bytes) : jsstring :=
  match bs with
  | [] => []
  | b0 :: rest =>
      if b0 <? 0x80 then b0 :: utf8_decode rest
      else
        match rest with
        | b1 :: rest1 =>
            if (0xc2 <=? b0) && (b0 <? 0xe0) && is_cont b1 then
              ((b0 - 0xc0) * 64 + (b1 - 0x80)) :: utf8_decode rest1
            else
              match rest1 with
              | b2 :: rest2 =>
                  let cp3 := (b0 - 0xe0) * 4096 + (b1 - 0x80) * 64 + (b2 - 0x80) in
                  if (0xe0 <=? b0) && (b0 <? 0xf0) && is_cont b1 && is_cont b2
                     && (0x800 <=? cp3)
                     && negb (is_high_surrogate cp3 || is_low_surrogate cp3)
                  then cp3 :: utf8_decode rest2
                  else
                    match rest2 with
                    | b3 :: rest3 =>
                        let cp4 := (b0 - 0xf0) * 262144 + (b1 - 0x80) * 4096
                                   + (b2 - 0x80) * 64 + (b3 - 0x80) in
                        if (0xf0 <=? b0) && (b0 <? 0xf5) && is_cont b1
                           && is_cont b2 && is_cont b3
                           && (0x10000 <=? cp4) && (cp4 <? 0x110000)
                        then utf16_scalar cp4 ++ utf8_decode rest3
                        else 0xfffd :: utf8_decode rest
                    | [] => 0xfffd :: utf8_decode rest
                    end
              | [] => 0xfffd :: utf8_decode rest
              end
        | [] => [0xfffd]
        end
  end.

(** ** [uuidv5] *)

Definition hex_value (c : N) : option N :=
  if is_digit c then Some (c - 48)
  else if (97 <=? c) && (c <=? 102) then Some (c - 87)
  else if (65 <=? c) && (c <=? 70) then Some (c - 55)
  else None.

Fixpoint hex_pairs (s : jsstring) : option bytes :=
  match s with
  | [] => Some []
  | h :: l :: rest =>
      hv ← hex_value h; lv ← hex_value l; bs ← hex_pairs rest;
      Some (hv * 16 + lv :: bs)
  | [_] => None
  end.

(** What the regular expression of [validate] asks of the character at
    index [i]: a dash after each group, the version digit from 1 to 5, the
    variant digit among 8, 9, a and b, a hexadecimal digit elsewhere, in
    either case. *)
Definition uuid_char (i : nat) (c : N) : bool :=
  match i with
  | 8%nat | 13%nat | 18%nat | 23%nat => c =? 45
  | 14%nat => (49 <=? c) && (c <=? 53)
  | 19%nat =>
      (c =? 56) || (c =? 57) || (c =? 97) || (c =? 98) || (c =? 65)
      || (c =? 66)
  | _ => match hex_value c with Some _ => true | None => false end
  end.

(** [validate] of the [uuid] package: 8-4-4-4-12 hexadecimal digits with a
    version and a variant digit, or the nil UUID. *)
Definition uuid_validate (s : jsstring) : bool :=
  bool_decide (s = js "00000000-0000-0000-0000-000000000000")
  || ((length s =? 36)%nat
      && forallb (fun ic => uuid_char ic.1 ic.2) (combine (seq 0 36) s)).

(** [parse] of the [uuid] package: the sixteen bytes of a valid UUID;
    [None] when it throws. *)
Definition uuid_parse (s : jsstring) : option bytes :=
  if uuid_validate s
  then hex_pairs (List.filter (fun c => negb (c =? 45)) s)
  else None.

Definition uuid_stringify (b : bytes) : jsstring :=
  hex (firstn 4 b) ++ [45] ++ hex (firstn 2 (skipn 4 b)) ++ [45]
  ++ hex (firstn 2 (skipn 6 b)) ++ [45] ++ hex (firstn 2 (skipn 8 b)) ++ [45]
  ++ hex (firstn 6 (skipn 10 b)).

(** [v5(value, namespace)] of the [uuid] package; [None] when it throws. *)
Definition uuidv5 (value namespace : jsstring) : option jsstring :=
  valueBytes ← stringToBytes value;
  namespaceBytes ← uuid_parse namespace;
  let h := sha1 (namespaceBytes ++ valueBytes) in
  let h := <[6%nat := N.lor (N.land (nth 6 h 0) 0x0f) 0x50]> h in
  let h := <[8%nat := N.lor (N.land (nth 8 h 0) 0x3f) 0x80]> h in
  Some (uuid_stringify (firstn 16 h)).

Definition UUID_NAMESPACE : jsstring := js "c72d8f12-1818-4cb9-bead-44634c441c11".


(** ** Numbers

    The counts of a report are doubles whose values are integers; such a
    double is kept as the integer it denotes ([is_double] tells which
    integers are doubles). The difference of two of them is, as IEEE 754
    has it, the exact difference rounded to the nearest double, ties going
    to the even significand, and infinite from [2 ^ 1024 - 2 ^ 970] on. *)

Definition round_double (x : Z) : Z :=
  let a := Z.abs x in
  let drop := (Z.log2 a + 1 - 53)%Z in
  if (drop <=? 0)%Z then x
  else
    let q := (a / 2 ^ drop)%Z in
    let r := (a mod 2 ^ drop)%Z in
    let half := (2 ^ (drop - 1))%Z in
    let q' :=
      if (r <? half)%Z then q
      else if (half <? r)%Z then (q + 1)%Z
      else if Z.even q then q else (q + 1)%Z in
    (Z.sgn x * (q' * 2 ^ drop))%Z.

Definition is_double (x : Z) : Prop :=
  round_double x = x ∧ (Z.abs x < 2 ^ 1024)%Z.

(** The result of an operation on such doubles: an integer, or an
    infinity. *)
Inductive jsnumber : Type :=
| Finite (z : Z)
| Infinite (negative : bool).

(** [a - b] on two doubles with integer values. *)
Definition double_sub (a b : Z) : jsnumber :=
  let r := round_double (a - b) in
  if (2 ^ 1024 <=? Z.abs r)%Z then Infinite (r <? 0)%Z else Finite r.

Definition decimal (z : Z) : jsstring :=
  List.map N_of_ascii
    (list_ascii_of_string (NilZero.string_of_int (Z.to_int z))).

(** The digits [s] and the exponent [n] of [Number::toString] for a double
    [v] of [n0] decimal digits: the least number [k] of digits such that
    some [s] of [k] digits times [10 ^ (n - k)] rounds to [v], and for this
    [k] the [s] nearest to [v] (the even one when two are as near). *)
Fixpoint shortest_digits (fuel : nat) (k v n0 : Z) : Z * Z :=
  match fuel with
  | O => (v, n0)
  | S fuel' =>
      let p := (10 ^ (n0 - k))%Z in
      let lo := (v / p)%Z in
      let hi := (lo + 1)%Z in
      let ok_lo := (round_double (lo * p) =? v)%Z in
      let ok_hi := (round_double (hi * p) =? v)%Z in
      let finish (s : Z) := if (s =? 10 ^ k)%Z then (1%Z, (n0 + 1)%Z) else (s, n0) in
      if ok_lo && ok_hi then
        if (v - lo * p <? hi * p - v)%Z then finish lo
        else if (hi * p - v <? v - lo * p)%Z then finish hi
        else if Z.even lo then finish lo else finish hi
      else if ok_lo then finish lo
      else if ok_hi then finish hi
      else shortest_digits fuel' (k + 1)%Z v n0
  end.

(** [Number::toString] for a double with an integer value: plain decimal
    below [10 ^ 21], exponent form from there on. *)
Definition json_integer (z : Z) : jsstring :=
  let a := Z.abs z in
  let sign : jsstring := if (z <? 0)%Z then [45] else [] in
  if (a <? 10 ^ 21)%Z then sign ++ decimal a
  else
    let n0 := Z.of_nat (length (decimal a)) in
    let '(s, n) := shortest_digits (Z.to_nat n0) 1 a n0 in
    let mantissa :=
      match decimal s with
      | d :: (_ :: _) as rest => d :: 46 :: rest
      | ds => ds
      end in
    sign ++ mantissa ++ [101; 43] ++ decimal (n - 1).

(** The JSON text of a number: [null] for an infinity. *)
Definition json_number (x : jsnumber) : jsstring :=
  match x with
  | Finite z => json_integer z
  | Infinite _ => [110; 117; 108; 108]
  end.

(** ** Data of the command *)

(** A double that the command only copies and prints ([report.time]), kept
    as the text [Number::toString] gives for it. *)
Record jsdouble : Type := mkDouble { double_text : jsstring }.

(** Modelled from the spec: the report summary [ingestReport] of
    [src/utils/ingest] resolves to. The counts are doubles with integer
    values; the command reads [tests], [failures] and [time]. *)
Record Report : Type := mkReport {
  r_tests : Z;
  r_failures : Z;
  r_time : jsdouble
}.

(** Modelled from the spec: [UtilsVersions] of [src/global.type], the
    content of the file written by [utils:modules]: [jahia.version],
    [jahia.build], [module.version] and [dependencies]. *)
Record UtilsVersions : Type := mkVersions {
  v_jahia_version : jsstring;
  v_jahia_build : jsstring;
  v_module_version : jsstring;
  v_dependencies : list ZenCrepesDependency
}.

Record Args : Type := mkArgs {
  a_file : jsstring;
  a_payloadurl : jsstring;
  a_secret : jsstring
}.

Record Flags : Type := mkFlags {
  f_type : jsstring;
  f_name : jsstring;
  f_version : jsstring;
  f_dependencies : jsstring;
  f_url : jsstring;
  f_versionFilepath : option jsstring
}.

(** [ZenCrepesStateNode], its properties prefixed with [zc_];
    [dependencies] is a reference to an array. *)
Record ZenCrepesStateNode : Type := mkNode {
  zc_id : jsstring;
  zc_name : jsstring;
  zc_version : jsstring;
  zc_dependencies : nat;
  zc_createdAt : jsstring;
  zc_state : jsstring;
  zc_url : jsstring;
  zc_runTotal : Z;
  zc_runSuccess : jsnumber;
  zc_runFailure : Z;
  zc_runDuration : jsdouble
}.

(** ** [JSON.stringify] *)

Definition hex4 (c : N) : jsstring :=
  [hex_digit (c / 4096); hex_digit ((c / 256) mod 16);
   hex_digit ((c / 16) mod 16); hex_digit (c mod 16)].

Definition unicode_escape (c : N) : jsstring := js "\u" ++ hex4 c.

Fixpoint quote_units (s : jsstring) : jsstring :=
  match s with
  | [] => []
  | c :: rest =>
      if c =? 8 then js "\b" ++ quote_units rest
      else if c =? 9 then js "\t" ++ quote_units rest
      else if c =? 10 then js "\n" ++ quote_units rest
      else if c =? 12 then js "\f" ++ quote_units rest
      else if c =? 13 then js "\r" ++ quote_units rest
      else if c =? 34 then [92; 34] ++ quote_units rest
      else if c =? 92 then [92; 92] ++ quote_units rest
      else if c <? 32 then unicode_escape c ++ quote_units rest
      else if is_high_surrogate c then
        match rest with
        | lo :: rest' =>
            if is_low_surrogate lo then c :: lo :: quote_units rest'
            else unicode_escape c ++ quote_units rest
        | [] => unicode_escape c
        end
      else if is_low_surrogate c then unicode_escape c ++ quote_units rest
      else c :: quote_units rest
  end.

Definition QuoteJSONString (s : jsstring) : jsstring :=
  [34] ++ quote_units s ++ [34].

(** A double: its text when it is finite, [null] otherwise. *)
Definition json_double (d : jsdouble) : jsstring :=
  if decide (double_text d = js "NaN" ∨ double_text d = js "Infinity"
             ∨ double_text d = js "-Infinity")
  then js "null" else double_text d.

Definition json_dependency (d : ZenCrepesDependency) : jsstring :=
  js "{" ++ QuoteJSONString (js "name") ++ js ":" ++ QuoteJSONString (d_name d)
  ++ js "," ++ QuoteJSONString (js "version") ++ js ":"
  ++ QuoteJSONString (d_version d) ++ js "}".

Fixpoint json_elements (l : list jsstring) : jsstring :=
  match l with
  | [] => []
  | [x] => x
  | x :: l' => x ++ js "," ++ json_elements l'
  end.

Definition json_array (l : list ZenCrepesDependency) : jsstring :=
  js "[" ++ json_elements (List.map json_dependency l) ++ js "]".

Definition json_member (key value : jsstring) : jsstring :=
  QuoteJSONString key ++ js ":" ++ value.

(** The JSON text of a payload whose [dependencies] array holds [deps]:
    the properties in the order of the object literal. *)
Definition json_node (p : ZenCrepesStateNode) (deps : list ZenCrepesDependency)
  : jsstring :=
  js "{"
  ++ json_elements
       [json_member (js "id") (QuoteJSONString (zc_id p));
        json_member (js "name") (QuoteJSONString (zc_name p));
        json_member (js "version") (QuoteJSONString (zc_version p));
        json_member (js "dependencies") (json_array deps);
        json_member (js "createdAt") (QuoteJSONString (zc_createdAt p));
        json_member (js "state") (QuoteJSONString (zc_state p));
        json_member (js "url") (QuoteJSONString (zc_url p));
        json_member (js "runTotal") (json_integer (zc_runTotal p));
        json_member (js "runSuccess") (json_number (zc_runSuccess p));
        json_member (js "runFailure") (json_integer (zc_runFailure p));
        json_member (js "runDuration") (json_double (zc_runDuration p))]
  ++ js "}".

(** ** The store, exceptions and observable effects *)

Inductive Error : Type :=
| ReportParseError     (* [ingestReport] rejects *)
| DependenciesError    (* [JSON.parse(flags.dependencies)] throws *)
| ManifestReadError    (* [fs.readFileSync] throws *)
| ManifestParseError   (* [JSON.parse(versionFile)] throws *)
| DeliveryError        (* the request throws *)
| TypeError.           (* a reference to no array, or [uuidv5] throws *)

Inductive Effect : Type :=
| Log (message : jsstring)
| Post (target : jsstring) (headers : list (jsstring * jsstring)) (body : bytes).

Record Store : Type := mkStore {
  arrays : list (list ZenCrepesDependency);
  effects : list Effect
}.

Definition M (A : Type) : Type := Store -> (Error + A) * Store.

#[global] Instance M_ret : MRet M := fun A x s => (inr x, s).

#[global] Instance M_bind : MBind M := fun A B f m s =>
  match m s with
  | (inl e, s') => (inl e, s')
  | (inr x, s') => f x s'
  end.

Definition throw {A : Type} (e : Error) : M A := fun s => (inl e, s).

Definition emit (ev : Effect) : M unit := fun s =>
  (inr tt, mkStore (arrays s) (effects s ++ [ev])).

(** A new array holding [l]; the result is its reference. *)
Definition Array_new (l : list ZenCrepesDependency) : M nat := fun s =>
  (inr (length (arrays s)), mkStore (arrays s ++ [l]) (effects s)).

Definition Array_read (r : nat) : M (list ZenCrepesDependency) := fun s =>
  match arrays s !! r with
  | Some l => (inr l, s)
  | None => (inl TypeError, s)
  end.

Definition Array_write (r : nat) (l : list ZenCrepesDependency) : M unit :=
  fun s => (inr tt, mkStore (<[r := l]> (arrays s)) (effects s)).

(** [a.push(x)] *)
Definition Array_push (r : nat) (x : ZenCrepesDependency) : M unit :=
  l ← Array_read r; Array_write r (l ++ [x]).

(** [a.sort(comparefn)]: sorts the array in place and returns the array
    itself. *)
Definition Array_sort (comparefn : ZenCrepesDependency -> ZenCrepesDependency -> Z)
    (r : nat) : M nat :=
  l ← Array_read r; Array_write r (sort_elements comparefn l);; mret r.

(** [a.forEach(callback)] for a callback that updates one captured variable
    of type [B]: the result is the last value of the variable. *)
Definition Array_forEach {B : Type} (r : nat)
    (callback : B -> ZenCrepesDependency -> B) (init : B) : M B :=
  l ← Array_read r; mret (fold_left callback l init).

(** [JSON.stringify(zcPayload)] *)
Definition JSON_stringify (p : ZenCrepesStateNode) : M jsstring :=
  deps ← Array_read (zc_dependencies p); mret (json_node p deps).

(** ** [getId] *)

Definition getId (name version : jsstring) (dependencies : nat) : M jsstring :=
  let idStr := prepString name ++ prepString version in
  sorted ← Array_sort compareDeps dependencies;
  idStr ← Array_forEach sorted
    (fun idStr d => idStr ++ prepString (d_name d) ++ prepString (d_version d))
    idStr;
  match uuidv5 idStr UUID_NAMESPACE with
  | Some uuid => mret uuid
  | None => throw TypeError
  end.

(** ** The collaborators of [run]

    What the command gets from outside: the report reader (with the lines
    it logs), the file system, the decoding of JSON text into the typed
    values the command expects ([None] when [JSON.parse] throws), the clock
    and the HTTP transport ([false] when the request throws). *)
Record World : Type := mkWorld {
  ingestReport : jsstring -> jsstring -> list jsstring * option Report;
  readFileSync : jsstring -> option bytes;
  parse_dependencies : jsstring -> option (list ZenCrepesDependency);
  parse_versions : bytes -> option UtilsVersions;
  toISOString_now : jsstring;
  request : jsstring -> list (jsstring * jsstring) -> bytes -> bool
}.

Definition lift {A : Type} (e : Error) (o : option A) : M A :=
  match o with
  | Some x => mret x
  | None => throw e
  end.

(** [await ingestReport(flags.type, args.file, this.log)] *)
Definition call_ingestReport (w : World) (type file : jsstring) : M Report :=
  let '(lines, result) := ingestReport w type file in
  foldr (fun line k => emit (Log line);; k) (mret tt) lines;;
  lift ReportParseError result.

(** The body sent for the [json] option of the request: the UTF-8 bytes of
    [JSON.stringify] of the object given to [post]. *)
Definition SyncRequestClient_post (w : World)
    (headers : list (jsstring * jsstring)) (target : jsstring)
    (p : ZenCrepesStateNode) : M unit :=
  text ← JSON_stringify p;
  let body := utf8_encode text in
  emit (Post target headers body);;
  if request w target headers body then mret tt else throw DeliveryError.

(** Lines 95 to 103: the dependencies and the version of the element. *)
Definition fetchDependencies (w : World) (flags : Flags) : M (nat * jsstring) :=
  parsed ← lift DependenciesError (parse_dependencies w (f_dependencies flags));
  dependencies ← Array_new parsed;
  let elementVersion := f_version flags in
  match f_versionFilepath flags with
  | Some path =>
      versionFile ← lift ManifestReadError (readFileSync w path);
      version ← lift ManifestParseError (parse_versions w versionFile);
      Array_push dependencies
        (mkDep (js "Jahia")
               (v_jahia_version version ++ js "-" ++ v_jahia_build version));;
      own ← Array_read dependencies;
      dependencies ← Array_new (own ++ v_dependencies version);
      mret (dependencies, v_module_version version)
  | None => mret (dependencies, elementVersion)
  end.

(** Lines 106 to 118: the payload. [getId] runs first, as the first
    property of the object literal. *)
Definition buildPayload (w : World) (flags : Flags) (report : Report)
    (dependencies : nat) (elementVersion : jsstring) : M ZenCrepesStateNode :=
  uuid ← getId (f_name flags) (f_version flags) dependencies;
  mret {| zc_id := uuid;
          zc_name := f_name flags;
          zc_version := elementVersion;
          zc_dependencies := dependencies;
          zc_createdAt := toISOString_now w;
          zc_state := if (r_failures report =? 0)%Z then js "PASS" else js "FAIL";
          zc_url := f_url flags;
          zc_runTotal := r_tests report;
          zc_runSuccess := double_sub (r_tests report) (r_failures report);
          zc_runFailure := r_failures report;
          zc_runDuration := r_time report |}.

(** Lines 92 to 118: from the command line to the payload. *)
Definition preparePayload (w : World) (args : Args) (flags : Flags)
  : M ZenCrepesStateNode :=
  report ← call_ingestReport w (f_type flags) (a_file args);
  '(dependencies, elementVersion) ← fetchDependencies w flags;
  buildPayload w flags report dependencies elementVersion.

(** Lines 122 to 127: the value of the [x-hub-signature] header. *)
Definition signature (secret : jsstring) (p : ZenCrepesStateNode) : M jsstring :=
  text ← JSON_stringify p;
  let digest :=
    utf8_encode
      (js "sha1=" ++ hex (hmac_sha1 (utf8_encode secret) (utf8_encode text))) in
  mret (utf8_decode digest).

(** Lines 122 to 134: signature, log line and request. *)
Definition deliver (w : World) (args : Args) (zcPayload : ZenCrepesStateNode)
  : M unit :=
  xHubSignature ← signature (a_secret args) zcPayload;
  text ← JSON_stringify zcPayload;
  emit (Log text);;
  SyncRequestClient_post w
    [(js "x-hub-signature", xHubSignature);
     (js "Content-Type", js "application/json")]
    (a_payloadurl args) zcPayload.

Definition run (w : World) (args : Args) (flags : Flags) : M unit :=
  zcPayload ← preparePayload w args flags;
  deliver w args zcPayload.

(** [getId(name, version, [...])]: a call of [getId] on a new array. *)
Definition call_getId (name version : jsstring) (l : list ZenCrepesDependency)
  : Error + jsstring :=
  fst ((dependencies ← Array_new l; getId name version dependencies)
         (mkStore [] [])).

(** The requests among some effects. *)
Definition posts (evs : list Effect) : list Effect :=
  List.filter (fun ev => match ev with Post _ _ _ => true | Log _ => false end) evs.

(** ** Vocabulary of the statements *)

(** [a] is not after [b] for [compareDeps]. *)
Definition dep_le (a b : ZenCrepesDependency) : Prop := (compareDeps a b <= 0)%Z.

Abbreviation sort_deps := (sort_elements compareDeps).

Definition ascii_only (s : list N) : Prop := Forall (fun c => c < 128) s.

(** The string [getId] hashes when the sorted array holds [sorted]. *)
Definition idStr_of (name version : jsstring) (sorted : list ZenCrepesDependency)
  : jsstring :=
  fold_left
    (fun idStr d => idStr ++ prepString (d_name d) ++ prepString (d_version d))
    sorted (prepString name ++ prepString version).

(** The identifier [getId] returns for an array holding [l]
    ([getId_run] below). *)
Definition deriveId (name version : jsstring) (l : list ZenCrepesDependency)
  : jsstring :=
  default [] (uuidv5 (idStr_of name version (sort_deps l)) UUID_NAMESPACE).

(** The dependencies after a version file was read: those of the command
    line, Jahia itself, those of the file. *)
Definition merged (explicit : list ZenCrepesDependency)
    (jahia_version jahia_build : jsstring)
    (declared : list ZenCrepesDependency) : list ZenCrepesDependency :=
  explicit ++ [mkDep (js "Jahia") (jahia_version ++ js "-" ++ jahia_build)]
  ++ declared.

(** What lines 95 to 103 compute, as a function of the collaborators'
    answers: the dependencies in the order of the array given to [getId],
    and the version of the payload. *)
Definition resolve (w : World) (flags : Flags)
  : Error + (list ZenCrepesDependency * jsstring) :=
  match parse_dependencies w (f_dependencies flags) with
  | None => inl DependenciesError
  | Some explicit =>
      match f_versionFilepath flags with
      | None => inr (explicit, f_version flags)
      | Some path =>
          match readFileSync w path with
          | None => inl ManifestReadError
          | Some versionFile =>
              match parse_versions w versionFile with
              | None => inl ManifestParseError
              | Some m =>
                  inr (merged explicit (v_jahia_version m) (v_jahia_build m)
                         (v_dependencies m),
                       v_module_version m)
              end
          end
      end
  end.

(** The payload of lines 106 to 118 for a given identifier and array. *)
Definition payload_of (w : World) (flags : Flags) (report : Report)
    (uuid : jsstring) (r : nat) (elementVersion : jsstring) : ZenCrepesStateNode :=
  {| zc_id := uuid;
     zc_name := f_name flags;
     zc_version := elementVersion;
     zc_dependencies := r;
     zc_createdAt := toISOString_now w;
     zc_state := if (r_failures report =? 0)%Z then js "PASS" else js "FAIL";
     zc_url := f_url flags;
     zc_runTotal := r_tests report;
     zc_runSuccess := double_sub (r_tests report) (r_failures report);
     zc_runFailure := r_failures report;
     zc_runDuration := r_time report |}.

(** The headers [run] sets for a request with body [body]. *)
Definition headers_for (secret : jsstring) (body : bytes)
  : list (jsstring * jsstring) :=
  [(js "x-hub-signature", js "sha1=" ++ hex (hmac_sha1 (utf8_encode secret) body));
   (js "Content-Type", js "application/json")].

(** The world [w] with a version file that declares [v] as the version of
    the module and is otherwise unchanged. *)
Definition with_module_version (w : World) (v : jsstring) : World := {|
  ingestReport := ingestReport w;
  readFileSync := readFileSync w;
  parse_dependencies := parse_dependencies w;
  parse_versions := fun versionFile =>
    (fun m => mkVersions (v_jahia_version m) (v_jahia_build m) v
                (v_dependencies m))
    <$> parse_versions w versionFile;
  toISOString_now := toISOString_now w;
  request := request w
|}.

(** ** A world and command lines to run the model on *)

Definition zeta : ZenCrepesDependency := mkDep (js "zeta") (js "1.0").
Definition Alpha : ZenCrepesDependency := mkDep (js "Alpha") (js "2.0").
Definition beta : ZenCrepesDependency := mkDep (js "beta") (js "3").

Definition sample_versions : UtilsVersions :=
  mkVersions (js "8.0.1") (js "abc") (js "2.1.0") [beta].

Definition sample_report : Report := mkReport 10 3 (mkDouble (js "12.3")).

(** The JSON text of a version file. *)
Definition json_versions (m : UtilsVersions) : jsstring :=
  js "{"
  ++ json_member (js "jahia")
       (js "{"
        ++ json_member (js "version") (QuoteJSONString (v_jahia_version m))
        ++ js ","
        ++ json_member (js "build") (QuoteJSONString (v_jahia_build m))
        ++ js "}")
  ++ js ","
  ++ json_member (js "module")
       (js "{"
        ++ json_member (js "version") (QuoteJSONString (v_module_version m))
        ++ js "}")
  ++ js ","
  ++ json_member (js "dependencies") (json_array (v_dependencies m))
  ++ js "}".

Fixpoint list_eqb (a b : list N) : bool :=
  match a, b with
  | [], [] => true
  | x :: a', y :: b' => (x =? y) && list_eqb a' b'
  | _, _ => false
  end.

(** A finite part of [JSON.parse]: the texts of the values of [known] are
    decoded, any other text is rejected. *)
Definition decode_among {A : Type} (encode : A -> list N) (known : list A)
    (text : list N) : option A :=
  List.find (fun x => list_eqb (encode x) text) known.

(** One file, [v.json], holds [sample_versions]; the report reader logs one
    line and answers [report]; every request goes through. *)
Definition sample_world_with (report : option Report) : World := {|
  ingestReport := fun _ _ => ([js "reading"], report);
  readFileSync := fun path =>
    if list_eqb path (js "v.json")
    then Some (utf8_encode (json_versions sample_versions)) else None;
  parse_dependencies := decode_among json_array [[]; [zeta; Alpha]];
  parse_versions :=
    decode_among (fun m => utf8_encode (json_versions m)) [sample_versions];
  toISOString_now := js "2021-01-01T00:00:00.000Z";
  request := fun _ _ _ => true
|}.

Definition sample_world : World := sample_world_with (Some sample_report).

Definition sample_args : Args :=
  mkArgs (js "report.xml") (js "http://zencrepes/hook") (js "abc").

(** [-n My-Mod -v 1.0.0 -d <dependencies>], with or without [-f]. *)
Definition sample_flags (dependencies : jsstring)
    (versionFilepath : option jsstring) : Flags :=
  mkFlags (js "xml") (js "My-Mod") (js "1.0.0") dependencies (js "")
    versionFilepath.

(** The dependencies [zeta], [Alpha] as JSON text. *)
Definition zeta_Alpha : jsstring := json_array [zeta; Alpha].

(** The example of the help text of [--dependencies],
    [[{name: "n", version: "v"}]], which is not JSON. *)
Definition help_text_example : jsstring :=
  js "[{name: " ++ QuoteJSONString (js "n") ++ js ", version: "
  ++ QuoteJSONString (js "v") ++ js "}]".

(** ** Vocabulary of the further properties *)

(** The raw names and versions of some dependencies, one after the other. *)
Definition flatten_deps (l : list ZenCrepesDependency) : jsstring :=
  flat_map (fun d => d_name d ++ d_version d) l.

(** A lower-case hexadecimal digit. *)
Definition is_hex_lower (c : N) : bool :=
  is_digit c || ((97 <=? c) && (c <=? 102)).

(** The world [w] with other answers of [fs.readFileSync] and of the
    decoding of version files; the report reader is the one of [w]. *)
Definition with_files (w : World) (files : jsstring -> option bytes)
    (decoder : bytes -> option UtilsVersions) : World := {|
  ingestReport := ingestReport w;
  readFileSync := files;
  parse_dependencies := parse_dependencies w;
  parse_versions := decoder;
  toISOString_now := toISOString_now w;
  request := request w
|}.

(** The world [w] with another transport. *)
Definition with_request (w : World)
    (transport : jsstring -> list (jsstring * jsstring) -> bytes -> bool)
  : World := {|
  ingestReport := ingestReport w;
  readFileSync := readFileSync w;
  parse_dependencies := parse_dependencies w;
  parse_versions := parse_versions w;
  toISOString_now := toISOString_now w;
  request := transport
|}.

(** An effect without what depends on the secret: a request without its
    headers. *)
Definition without_headers (ev : Effect) : Effect :=
  match ev with
  | Log message => Log message
  | Post target _ body => Post target [] body
  end.

(** The same arguments with another secret. *)
Definition with_secret (args : Args) (secret : jsstring) : Args :=
  mkArgs (a_file args) (a_payloadurl args) secret.

(** ** The command on JSON values as [JSON.parse] yields them

    The definitions above follow the types of the source: a dependency is
    a [ZenCrepesDependency], a version file a [UtilsVersions]. These types
    are erased when the command runs, and [JSON.parse] yields whatever the
    text holds. The module [Untyped] is the same command without them: the
    dependencies and the version file are JSON values, and an operation on
    a value that has not the expected shape throws a [TypeError]. *)

Module Untyped.

#[local] Set Warnings "-register-all".

(** A JSON value. The members of an object are in the order of its keys,
    which are distinct; a number is kept as for [report.time]. *)
Inductive json : Type :=
| JNull
| JBool (b : bool)
| JNumber (d : jsdouble)
| JString (s : list N)
| JArray (elements : list json)
| JObject (members : list (list N * json)).

(** What a variable of the command holds: [undefined], a JSON value, or a
    reference to an array of the store. *)
Inductive value : Type :=
| Undefined
| Json (j : json)
| ArrayRef (r : nat).

Fixpoint lookup_member (key : list N) (members : list (list N * json))
  : option json :=
  match members with
  | [] => None
  | (k, v) :: members' =>
      if list_eqb k key then Some v else lookup_member key members'
  end.

(** [v.key] for a value [v] that is not a reference ([None] is
    [undefined]) and a key that no prototype defines: a [TypeError] on
    [undefined] and [null], the member of an object, [undefined] on
    anything else. *)
Definition Get (v : option json) (key : list N) : Error + option json :=
  match v with
  | None | Some JNull => inl TypeError
  | Some (JObject members) => inr (lookup_member key members)
  | Some _ => inr None
  end.

Fixpoint join (separator : list N) (l : list (list N)) : list N :=
  match l with
  | [] => []
  | [x] => x
  | x :: l' => x ++ separator ++ join separator l'
  end.

(** [ToString]: an array is joined with commas, [null] counting as the
    empty string in it; an object is [[object Object]] unless it has a
    member [toString], which is no function and leaves no way to a
    primitive value: [None] is this [TypeError]. *)
Fixpoint ToString (j : json) : option (list N) :=
  match j with
  | JNull => Some (js "null")
  | JBool b => Some (if b then js "true" else js "false")
  | JNumber d => Some (double_text d)
  | JString s => Some s
  | JArray l =>
      join (js ",")
      <$> (fix each (l : list json) : option (list (list N)) :=
             match l with
             | [] => Some []
             | e :: l' =>
                 match match e with JNull => Some [] | _ => ToString e end,
                       each l' with
                 | Some x, Some xs => Some (x :: xs)
                 | _, _ => None
                 end
             end) l
  | JObject members =>
      match lookup_member (js "toString") members with
      | Some _ => None
      | None => Some (js "[object Object]")
      end
  end.

(** A substitution of a template literal. *)
Definition template (v : option json) : Error + list N :=
  match v with
  | None => inr (js "undefined")
  | Some j =>
      match ToString j with Some text => inr text | None => inl TypeError end
  end.

(** The strings a string iterates over: its code points. *)
Fixpoint code_points (s : list N) : list (list N) :=
  match s with
  | [] => []
  | c :: rest =>
      if is_high_surrogate c then
        match rest with
        | lo :: rest' =>
            if is_low_surrogate lo then [c; lo] :: code_points rest'
            else [c] :: code_points rest
        | [] => [[c]]
        end
      else [c] :: code_points rest
  end.

(** [...v]: the elements of an array, the code points of a string, a
    [TypeError] on what cannot be iterated. *)
Definition spread (v : option json) : Error + list json :=
  match v with
  | Some (JArray l) => inr l
  | Some (JString s) => inr (List.map JString (code_points s))
  | _ => inl TypeError
  end.

(** [JSON.stringify] of a JSON value. *)
Fixpoint json_text (j : json) : list N :=
  match j with
  | JNull => js "null"
  | JBool b => if b then js "true" else js "false"
  | JNumber d => json_double d
  | JString s => QuoteJSONString s
  | JArray l => js "[" ++ json_elements (List.map json_text l) ++ js "]"
  | JObject members =>
      js "{"
      ++ json_elements
           (List.map (fun kv => json_member kv.1 (json_text kv.2)) members)
      ++ js "}"
  end.

(** The name and the version of an element for which [prepString] does
    not throw on either: an object whose members [name] and [version] are
    strings. *)
Definition as_dependency (j : json) : option ZenCrepesDependency :=
  match j with
  | JObject members =>
      match lookup_member (js "name") members,
            lookup_member (js "version") members with
      | Some (JString n), Some (JString v) => Some (mkDep n v)
      | _, _ => None
      end
  | _ => None
  end.

(** The comparison function of [getId] on two such elements. *)
Definition compareElements (a b : json) : Z :=
  match as_dependency a, as_dependency b with
  | Some x, Some y => compareDeps x y
  | _, _ => 0%Z
  end.

(** What [forEach] appends to [idStr] for such an element. *)
Definition element_text (d : json) : list N :=
  match as_dependency d with
  | Some x => prepString (d_name x) ++ prepString (d_version x)
  | None => []
  end.

(** [ZenCrepesStateNode] as the object literal builds it: [version] is
    whatever [elementVersion] holds. *)
Record ZenCrepesStateNode : Type := mkNode {
  zc_id : list N;
  zc_name : list N;
  zc_version : option json;
  zc_dependencies : nat;
  zc_createdAt : list N;
  zc_state : list N;
  zc_url : list N;
  zc_runTotal : Z;
  zc_runSuccess : jsnumber;
  zc_runFailure : Z;
  zc_runDuration : jsdouble
}.

(** The JSON text of a payload whose array holds [deps]: a property that
    is [undefined] is left out. *)
Definition json_node (p : ZenCrepesStateNode) (deps : list json) : list N :=
  js "{"
  ++ json_elements
       ([json_member (js "id") (QuoteJSONString (zc_id p));
         json_member (js "name") (QuoteJSONString (zc_name p))]
        ++ match zc_version p with
           | Some v => [json_member (js "version") (json_text v)]
           | None => []
           end
        ++ [json_member (js "dependencies") (json_text (JArray deps));
            json_member (js "createdAt") (QuoteJSONString (zc_createdAt p));
            json_member (js "state") (QuoteJSONString (zc_state p));
            json_member (js "url") (QuoteJSONString (zc_url p));
            json_member (js "runTotal") (json_integer (zc_runTotal p));
            json_member (js "runSuccess") (json_number (zc_runSuccess p));
            json_member (js "runFailure") (json_integer (zc_runFailure p));
            json_member (js "runDuration") (json_double (zc_runDuration p))])
  ++ js "}".

(** The store holds arrays of JSON values. *)
Record Store : Type := mkStore {
  arrays : list (list json);
  effects : list Effect
}.

Definition M (A : Type) : Type := Store -> (Error + A) * Store.

#[global] Instance M_ret : MRet M := fun A x s => (inr x, s).

#[global] Instance M_bind : MBind M := fun A B f m s =>
  match m s with
  | (inl e, s') => (inl e, s')
  | (inr x, s') => f x s'
  end.

Definition throw {A : Type} (e : Error) : M A := fun s => (inl e, s).

Definition emit (ev : Effect) : M unit := fun s =>
  (inr tt, mkStore (arrays s) (effects s ++ [ev])).

Definition lift {A : Type} (e : Error) (o : option A) : M A :=
  match o with
  | Some x => mret x
  | None => throw e
  end.

(** The result of an expression that reads no state. *)
Definition eval {A : Type} (x : Error + A) : M A :=
  match x with
  | inr a => mret a
  | inl e => throw e
  end.

Definition Array_new (l : list json) : M nat := fun s =>
  (inr (length (arrays s)), mkStore (arrays s ++ [l]) (effects s)).

Definition Array_read (r : nat) : M (list json) := fun s =>
  match arrays s !! r with
  | Some l => (inr l, s)
  | None => (inl TypeError, s)
  end.

Definition Array_write (r : nat) (l : list json) : M unit :=
  fun s => (inr tt, mkStore (<[r := l]> (arrays s)) (effects s)).

(** The array a method of [Array.prototype] is called on: a value that is
    no array has no such method ([null] and [undefined] have no property
    at all). *)
Definition the_array (v : value) : M nat :=
  match v with
  | ArrayRef r => mret r
  | _ => throw TypeError
  end.

(** What the command gets from outside. [JSON_parse] is [JSON.parse]
    ([None] when it throws its [SyntaxError]); [engine_sort] is the
    arrangement [sort] leaves an array in when the comparison function is
    given elements it cannot order or throws on. *)
Record World : Type := mkWorld {
  ingestReport : list N -> list N -> list (list N) * option Report;
  readFileSync : list N -> option (list N);
  JSON_parse : list N -> option json;
  engine_sort : list json -> list json;
  toISOString_now : list N;
  request : list N -> list (list N * list N) -> list N -> bool
}.

(** [getId]. When every element has a name and a version that are
    strings, the comparison function compares strings, [sort] is the
    stable sort of ECMAScript 2019 (elements that compare equal keep their
    order) and [forEach] goes through; otherwise [prepString] throws on
    the first element that has not ([undefined.replace], or [replace] is
    no function), if the comparison function has not thrown before
    ([null.name]). *)
Definition getId (w : World) (name version : list N) (dependencies : value)
  : M (list N) :=
  let idStr := prepString name ++ prepString version in
  r ← the_array dependencies;
  l ← Array_read r;
  if forallb (fun d => bool_decide (is_Some (as_dependency d))) l then
    Array_write r (sort_elements compareElements l);;
    sorted ← Array_read r;
    let idStr := fold_left (fun idStr d => idStr ++ element_text d) sorted idStr in
    match uuidv5 idStr UUID_NAMESPACE with
    | Some uuid => mret uuid
    | None => throw TypeError
    end
  else
    Array_write r (engine_sort w l);;
    throw TypeError.

(** [await ingestReport(flags.type, args.file, this.log)] *)
Definition call_ingestReport (w : World) (type file : list N) : M Report :=
  let '(lines, result) := ingestReport w type file in
  foldr (fun line k => emit (Log line);; k) (mret tt) lines;;
  lift ReportParseError result.

(** Line 95, and line 99 for a text: [JSON.parse]. The array of line 95
    goes to the store, as it is changed in place later on. *)
Definition parse_dependencies (w : World) (text : list N) : M value :=
  parsed ← lift DependenciesError (JSON_parse w text);
  match parsed with
  | JArray l => r ← Array_new l; mret (ArrayRef r)
  | j => mret (Json j)
  end.

(** The template literal of line 100. *)
Definition jahia_version (version : json) : Error + list N :=
  match Get (Some version) (js "jahia") with
  | inl e => inl e
  | inr jahia =>
      match Get jahia (js "version") with
      | inl e => inl e
      | inr v =>
          match template v with
          | inl e => inl e
          | inr vtext =>
              match Get jahia (js "build") with
              | inl e => inl e
              | inr b =>
                  match template b with
                  | inl e => inl e
                  | inr btext => inr (vtext ++ js "-" ++ btext)
                  end
              end
          end
      end
  end.

(** [...version.dependencies] of line 101. *)
Definition declared_dependencies (version : json) : Error + list json :=
  match Get (Some version) (js "dependencies") with
  | inl e => inl e
  | inr v => spread v
  end.

(** [version.module.version] of line 102. *)
Definition module_version (version : json) : Error + option json :=
  match Get (Some version) (js "module") with
  | inl e => inl e
  | inr m => Get m (js "version")
  end.

(** Lines 95 to 103. On line 100 the value of [dependencies] must be an
    array for [push] to be there; the argument is evaluated as well, every
    failure being a [TypeError]. *)
Definition fetchDependencies (w : World) (flags : Flags)
  : M (value * option json) :=
  dependencies ← parse_dependencies w (f_dependencies flags);
  let elementVersion := Some (JString (f_version flags)) in
  match f_versionFilepath flags with
  | Some path =>
      versionFile ← lift ManifestReadError (readFileSync w path);
      version ← lift ManifestParseError
                  (JSON_parse w (utf8_decode versionFile));
      r ← the_array dependencies;
      text ← eval (jahia_version version);
      own ← Array_read r;
      Array_write r
        (own ++ [JObject [(js "name", JString (js "Jahia"));
                          (js "version", JString text)]]);;
      own ← Array_read r;
      declared ← eval (declared_dependencies version);
      r' ← Array_new (own ++ declared);
      elementVersion ← eval (module_version version);
      mret (ArrayRef r', elementVersion)
  | None => mret (dependencies, elementVersion)
  end.

(** Lines 106 to 118. *)
Definition buildPayload (w : World) (flags : Flags) (report : Report)
    (dependencies : value) (elementVersion : option json)
  : M ZenCrepesStateNode :=
  uuid ← getId w (f_name flags) (f_version flags) dependencies;
  r ← the_array dependencies;
  mret {| zc_id := uuid;
          zc_name := f_name flags;
          zc_version := elementVersion;
          zc_dependencies := r;
          zc_createdAt := toISOString_now w;
          zc_state := if (r_failures report =? 0)%Z then js "PASS" else js "FAIL";
          zc_url := f_url flags;
          zc_runTotal := r_tests report;
          zc_runSuccess := double_sub (r_tests report) (r_failures report);
          zc_runFailure := r_failures report;
          zc_runDuration := r_time report |}.

Definition preparePayload (w : World) (args : Args) (flags : Flags)
  : M ZenCrepesStateNode :=
  report ← call_ingestReport w (f_type flags) (a_file args);
  '(dependencies, elementVersion) ← fetchDependencies w flags;
  buildPayload w flags report dependencies elementVersion.

Definition JSON_stringify (p : ZenCrepesStateNode) : M (list N) :=
  deps ← Array_read (zc_dependencies p); mret (json_node p deps).

Definition signature (secret : list N) (p : ZenCrepesStateNode) : M (list N) :=
  text ← JSON_stringify p;
  let digest :=
    utf8_encode
      (js "sha1=" ++ hex (hmac_sha1 (utf8_encode secret) (utf8_encode text))) in
  mret (utf8_decode digest).

Definition SyncRequestClient_post (w : World)
    (headers : list (list N * list N)) (target : list N)
    (p : ZenCrepesStateNode) : M unit :=
  text ← JSON_stringify p;
  let body := utf8_encode text in
  emit (Post target headers body);;
  if request w target headers body then mret tt else throw DeliveryError.

Definition deliver (w : World) (args : Args) (zcPayload : ZenCrepesStateNode)
  : M unit :=
  xHubSignature ← signature (a_secret args) zcPayload;
  text ← JSON_stringify zcPayload;
  emit (Log text);;
  SyncRequestClient_post w
    [(js "x-hub-signature", xHubSignature);
     (js "Content-Type", js "application/json")]
    (a_payloadurl args) zcPayload.

Definition run (w : World) (args : Args) (flags : Flags) : M unit :=
  zcPayload ← preparePayload w args flags;
  deliver w args zcPayload.

(** What lines 95 to 103 leave in the array given to [getId], with the
    value of [elementVersion], or the error they or the call of [sort]
    end with, as a function of the answers of the world. *)
Definition resolve (w : World) (flags : Flags)
  : Error + (list json * option json) :=
  match JSON_parse w (f_dependencies flags) with
  | None => inl DependenciesError
  | Some parsed =>
      match f_versionFilepath flags with
      | None =>
          match parsed with
          | JArray l => inr (l, Some (JString (f_version flags)))
          | _ => inl TypeError
          end
      | Some path =>
          match readFileSync w path with
          | None => inl ManifestReadError
          | Some versionFile =>
              match JSON_parse w (utf8_decode versionFile) with
              | None => inl ManifestParseError
              | Some version =>
                  match parsed, jahia_version version,
                        declared_dependencies version,
                        module_version version with
                  | JArray l, inr text, inr declared, inr elementVersion =>
                      inr (l ++ [JObject [(js "name", JString (js "Jahia"));
                                          (js "version", JString text)]]
                           ++ declared,
                           elementVersion)
                  | _, _, _, _ => inl TypeError
                  end
              end
          end
      end
  end.

(** Every element has a name and a version that are strings. *)
Definition well_typed (l : list json) : bool :=
  forallb (fun d => bool_decide (is_Some (as_dependency d))) l.

(** The arrangement [getId] leaves such an array in, the string it hashes
    and the identifier it returns. *)
Definition sort_deps (l : list json) : list json :=
  sort_elements compareElements l.

Definition idStr_of (name version : list N) (sorted : list json) : list N :=
  fold_left (fun idStr d => idStr ++ element_text d) sorted
    (prepString name ++ prepString version).

Definition deriveId (name version : list N) (l : list json) : list N :=
  default [] (uuidv5 (idStr_of name version (sort_deps l)) UUID_NAMESPACE).

(** The payload of a run that got [report], with identifier [uuid], array
    reference [r] and element version [v]. *)
Definition payload_of (w : World) (flags : Flags) (report : Report)
    (uuid : list N) (r : nat) (v : option json) : ZenCrepesStateNode :=
  {| zc_id := uuid;
     zc_name := f_name flags;
     zc_version := v;
     zc_dependencies := r;
     zc_createdAt := toISOString_now w;
     zc_state := if (r_failures report =? 0)%Z then js "PASS" else js "FAIL";
     zc_url := f_url flags;
     zc_runTotal := r_tests report;
     zc_runSuccess := double_sub (r_tests report) (r_failures report);
     zc_runFailure := r_failures report;
     zc_runDuration := r_time report |}.

End Untyped.

(** A dependency and a version file as JSON values. *)
Definition json_of_dependency (d : ZenCrepesDependency) : Untyped.json :=
  Untyped.JObject [(js "name", Untyped.JString (d_name d));
                   (js "version", Untyped.JString (d_version d))].

Definition json_of_versions (m : UtilsVersions) : Untyped.json :=
  Untyped.JObject
    [(js "jahia",
      Untyped.JObject [(js "version", Untyped.JString (v_jahia_version m));
                       (js "build", Untyped.JString (v_jahia_build m))]);
     (js "module",
      Untyped.JObject [(js "version", Untyped.JString (v_module_version m))]);
     (js "dependencies",
      Untyped.JArray (List.map json_of_dependency (v_dependencies m)))].

(** A dependency without a version, as in [-d '[{"name":"a"}]'], and a
    version file without the member [module]. *)
Definition name_only : Untyped.json :=
  Untyped.JArray [Untyped.JObject [(js "name", Untyped.JString (js "a"))]].

Definition no_module : Untyped.json :=
  Untyped.JObject
    [(js "jahia", Untyped.JObject [(js "version", Untyped.JNumber (mkDouble (js "8")));
                                   (js "build", Untyped.JNull)]);
     (js "dependencies", Untyped.JArray [])].

(** [sample_world] with [JSON.parse] on a finite part: the file [v.json]
    holds [sample_versions], the file [w.json] holds [no_module]; an array
    whose elements cannot be ordered is left as it is. *)
Definition sample_engine : Untyped.World := {|
  Untyped.ingestReport := fun _ _ => ([js "reading"], Some sample_report);
  Untyped.readFileSync := fun path =>
    if list_eqb path (js "v.json")
    then Some (utf8_encode (Untyped.json_text (json_of_versions sample_versions)))
    else if list_eqb path (js "w.json")
    then Some (utf8_encode (Untyped.json_text no_module))
    else None;
  Untyped.JSON_parse :=
    decode_among Untyped.json_text
      [Untyped.JArray [];
       Untyped.JArray (List.map json_of_dependency [zeta; Alpha]);
       name_only;
       Untyped.JObject [];
       json_of_versions sample_versions;
       no_module];
  Untyped.engine_sort := fun l => l;
  Untyped.toISOString_now := js "2021-01-01T00:00:00.000Z";
  Untyped.request := fun _ _ _ => true
|}.


(** ** JSON values of the declared types

    The values [JSON.parse] yields for texts that hold what the types
    [ZenCrepesDependency[]] and [UtilsVersions] declare, and the world of
    the typed definitions that a world of [Untyped] gives on them. *)

Definition dependency_of_json (j : Untyped.json) : option ZenCrepesDependency :=
  match j with
  | Untyped.JObject [(k1, Untyped.JString n); (k2, Untyped.JString v)] =>
      if list_eqb k1 (js "name") && list_eqb k2 (js "version")
      then Some (mkDep n v) else None
  | _ => None
  end.

Definition dependencies_of_json (j : Untyped.json)
  : option (list ZenCrepesDependency) :=
  match j with
  | Untyped.JArray l => mapM dependency_of_json l
  | _ => None
  end.

Definition object_member (key : list N) (j : Untyped.json)
  : option Untyped.json :=
  match j with
  | Untyped.JObject members => Untyped.lookup_member key members
  | _ => None
  end.

Definition string_member (key : list N) (j : Untyped.json) : option (list N) :=
  match object_member key j with
  | Some (Untyped.JString s) => Some s
  | _ => None
  end.

Definition versions_of_json (j : Untyped.json) : option UtilsVersions :=
  jahia ← object_member (js "jahia") j;
  jahia_version ← string_member (js "version") jahia;
  jahia_build ← string_member (js "build") jahia;
  module ← object_member (js "module") j;
  module_version ← string_member (js "version") module;
  dependencies ← object_member (js "dependencies") j ≫= dependencies_of_json;
  Some (mkVersions jahia_version jahia_build module_version dependencies).

Definition typed_world (w : Untyped.World) : World := {|
  ingestReport := Untyped.ingestReport w;
  readFileSync := Untyped.readFileSync w;
  parse_dependencies := fun text =>
    Untyped.JSON_parse w text ≫= dependencies_of_json;
  parse_versions := fun versionFile =>
    Untyped.JSON_parse w (utf8_decode versionFile) ≫= versions_of_json;
  toISOString_now := Untyped.toISOString_now w;
  request := Untyped.request w
|}.

(** Whatever [JSON.parse] yields for the dependencies of [flags] and for
    its version file is of the declared type. *)
Definition of_declared_types (w : Untyped.World) (flags : Flags) : Prop :=
  (∀ j, Untyped.JSON_parse w (f_dependencies flags) = Some j →
        is_Some (dependencies_of_json j))
  ∧ (∀ path versionFile j,
       f_versionFilepath flags = Some path →
       Untyped.readFileSync w path = Some versionFile →
       Untyped.JSON_parse w (utf8_decode versionFile) = Some j →
       is_Some (versions_of_json j)).

(** The name and the version of an element of the array. *)
Definition name_version (j : Untyped.json) : ZenCrepesDependency :=
  default (mkDep [] []) (Untyped.as_dependency j).

(** Dependencies with further properties, the name not first. *)
Definition tagged : list Untyped.json :=
  [Untyped.JObject [(js "version", Untyped.JString (js "1.0"));
                    (js "scope", Untyped.JNull);
                    (js "name", Untyped.JString (js "zeta"))];
   Untyped.JObject [(js "name", Untyped.JString (js "Alpha"));
                    (js "version", Untyped.JString (js "2.0"));
                    (js "optional", Untyped.JBool true)]].

(** * Properties *)

(** ** Published test vectors

    FIPS 180 for SHA-1, RFC 2202 for HMAC-SHA1, the documentation of the
    [uuid] package for [v5]. *)

Example sha1_abc :
  hex (sha1 (js "abc")) = js "a9993e364706816aba3e25717850c26c9cd0d89d".
Proof. by vm_compute. Qed.

Example sha1_two_blocks :
  hex (sha1 (js "abcdbcdecdefdefgefghfghighijhijkijkljklmklmnlmnomnopnopq"))
  = js "84983e441c3bd26ebaae4aa1f95129e5e54670f1".
Proof. by vm_compute. Qed.

Example hmac_sha1_rfc2202 :
  hex (hmac_sha1 (js "Jefe") (js "what do ya want for nothing?"))
  = js "effcdf6ae5eb2fa2d27416d5f184df9c259a7c79".
Proof. by vm_compute. Qed.

Example uuidv5_dns :
  uuidv5 (js "hello.example.com") (js "6ba7b810-9dad-11d1-80b4-00c04fd430c8")
  = Some (js "fdda765f-fc57-5604-a269-52a7df8164ec").
Proof. by vm_compute. Qed.

Example uuidv5_rejects :
  uuidv5 [0xd800] UUID_NAMESPACE = None
  ∧ uuidv5 (js "jahia") (js "c72d8f12") = None.
Proof. by vm_compute. Qed.

(** ** The order on strings *)

Lemma js_lt_irrefl (a : jsstring) : js_lt a a = false.
Proof.
  induction a as [|x a IH]; simpl; [done|].
  by rewrite N.ltb_irrefl.
Qed.

Lemma js_lt_trans (a b c : jsstring) :
  js_lt a b = true → js_lt b c = true → js_lt a c = true.
Proof.
  revert b c. induction a as [|x a IH]; intros [|y b] [|z c]; simpl; try done.
  destruct (N.ltb_spec x y), (N.ltb_spec y x), (N.ltb_spec y z),
    (N.ltb_spec z y), (N.ltb_spec x z), (N.ltb_spec z x);
    try done; try lia.
  apply IH.
Qed.

Lemma js_lt_connex (a b : jsstring) :
  js_lt a b = false → js_lt b a = false → a = b.
Proof.
  revert b. induction a as [|x a IH]; intros [|y b]; simpl; try done.
  destruct (N.ltb_spec x y), (N.ltb_spec y x); try done.
  intros Hab Hba. f_equal; [lia | by apply IH].
Qed.

Lemma js_lt_asym (a b : jsstring) : js_lt a b = true → js_lt b a = false.
Proof.
  intros Hab. destruct (js_lt b a) eqn:Hba; [|done].
  by rewrite <- (js_lt_irrefl a), (js_lt_trans a b a).
Qed.

(** ** The order of [compareDeps] *)

Lemma compareDeps_cases (a b : ZenCrepesDependency) :
  (compareDeps a b = 1%Z ∧ compareDeps b a = (-1)%Z)
  ∨ (compareDeps a b = (-1)%Z ∧ compareDeps b a = 1%Z)
  ∨ (compareDeps a b = 0%Z ∧ a = b).
Proof.
  destruct a as [an av], b as [bn bv]. unfold compareDeps, js_gt. simpl.
  destruct (js_lt bn an) eqn:Hn1.
  { left. by rewrite (js_lt_asym _ _ Hn1). }
  destruct (js_lt an bn) eqn:Hn2.
  { right; left. done. }
  assert (an = bn) as -> by by apply js_lt_connex.
  destruct (js_lt bv av) eqn:Hv1.
  { left. by rewrite (js_lt_asym _ _ Hv1). }
  destruct (js_lt av bv) eqn:Hv2.
  { right; left. done. }
  right; right. split; [done|]. f_equal. by apply js_lt_connex.
Qed.

Lemma compareDeps_refl (a : ZenCrepesDependency) : compareDeps a a = 0%Z.
Proof.
  unfold compareDeps, js_gt. by rewrite !js_lt_irrefl.
Qed.

#[global] Instance dep_le_total : Total dep_le.
Proof.
  intros a b. unfold dep_le.
  destruct (compareDeps_cases a b) as [[-> ->]|[[-> ->]|[-> _]]]; lia.
Qed.

#[global] Instance dep_le_antisym : AntiSymm (=) dep_le.
Proof.
  intros a b. unfold dep_le.
  destruct (compareDeps_cases a b) as [[-> ->]|[[-> ->]|[_ ->]]]; lia || done.
Qed.

Lemma compareDeps_le_name (a b : ZenCrepesDependency) :
  dep_le a b ↔
  js_lt (d_name a) (d_name b) = true
  ∨ (d_name a = d_name b ∧ js_lt (d_version b) (d_version a) = false).
Proof.
  destruct a as [an av], b as [bn bv]. unfold dep_le, compareDeps, js_gt. simpl.
  destruct (js_lt bn an) eqn:Hn1.
  { split; [lia|]. intros [H|[-> _]].
    - by rewrite (js_lt_asym _ _ H) in Hn1.
    - by rewrite js_lt_irrefl in Hn1. }
  destruct (js_lt an bn) eqn:Hn2.
  { split; [by left | lia]. }
  assert (an = bn) as -> by by apply js_lt_connex.
  destruct (js_lt bv av) eqn:Hv1.
  { split; [lia|]. by intros [?|[_ ?]]. }
  split; [by right|]. intros _. destruct (js_lt av bv); lia.
Qed.

#[global] Instance dep_le_trans : Transitive dep_le.
Proof.
  intros a b c. rewrite !compareDeps_le_name.
  intros [Hab|[Hab Hab']] [Hbc|[Hbc Hbc']].
  - left. eauto using js_lt_trans.
  - left. by rewrite <- Hbc.
  - left. by rewrite Hab.
  - right. split; [congruence|].
    destruct (js_lt (d_version c) (d_version a)) eqn:Hca; [|done].
    destruct (js_lt (d_version b) (d_version c)) eqn:Hbc2.
    + by rewrite (js_lt_trans _ _ _ Hbc2 Hca) in Hab'.
    + assert (d_version b = d_version c) as Heq by by apply js_lt_connex.
      by rewrite Heq, Hca in Hab'.
Qed.

(** ** [sort] *)

Section SortSpec.
Context {A : Type} (comparefn : A → A → Z).

Lemma sort_insert_Permutation (x : A) (l : list A) :
  sort_insert comparefn x l ≡ₚ x :: l.
Proof.
  induction l as [|y l IH]; simpl; [done|].
  destruct (comparefn x y <=? 0)%Z; [done|].
  rewrite IH. apply Permutation_swap.
Qed.

Lemma sort_elements_Permutation (l : list A) :
  sort_elements comparefn l ≡ₚ l.
Proof.
  induction l as [|x l IH]; simpl; [done|].
  by rewrite sort_insert_Permutation, IH.
Qed.

Let le (a b : A) : Prop := (comparefn a b <= 0)%Z.
Context `{!Total le}.

Lemma sort_insert_Sorted (x : A) (l : list A) :
  Sorted le l → Sorted le (sort_insert comparefn x l).
Proof.
  induction 1 as [|y l Hl IH Hy]; simpl.
  { repeat constructor. }
  destruct (Z.leb_spec (comparefn x y) 0) as [Hxy|Hxy].
  { repeat constructor; done. }
  constructor; [done|].
  assert (le y x) as Hyx.
  { destruct (total le x y) as [?|?]; [unfold le in *; lia | done]. }
  destruct Hy as [|z l Hz]; simpl.
  { by constructor. }
  destruct (comparefn x z <=? 0)%Z; by constructor.
Qed.

Lemma sort_elements_Sorted (l : list A) : Sorted le (sort_elements comparefn l).
Proof.
  induction l as [|x l IH]; simpl; [constructor|].
  by apply sort_insert_Sorted.
Qed.
End SortSpec.

Lemma sort_deps_Sorted (l : list ZenCrepesDependency) : Sorted dep_le (sort_deps l).
Proof. apply (sort_elements_Sorted compareDeps). Qed.

(** Whatever algorithm [sort] runs, its result with [compareDeps] is the one
    of [sort_elements]: the sorted arrangement of the elements is unique. *)
Lemma sort_unique (l l' : list ZenCrepesDependency) :
  Sorted dep_le l' → l' ≡ₚ l → l' = sort_deps l.
Proof.
  intros Hs Hp. apply (Sorted_unique dep_le); [done|apply sort_deps_Sorted|].
  by rewrite Hp, sort_elements_Permutation.
Qed.

Lemma sort_deps_perm (l1 l2 : list ZenCrepesDependency) :
  l1 ≡ₚ l2 → sort_deps l1 = sort_deps l2.
Proof.
  intros Hp. apply sort_unique; [apply sort_deps_Sorted|].
  by rewrite sort_elements_Permutation.
Qed.

Lemma sort_deps_idemp (l : list ZenCrepesDependency) :
  sort_deps (sort_deps l) = sort_deps l.
Proof. apply sort_deps_perm, sort_elements_Permutation. Qed.

(** ** ASCII strings and UTF-8 *)

Lemma utf8_units_ascii (s : jsstring) :
  ascii_only s → utf8_units s = List.map (fun c => Some [c]) s.
Proof.
  induction 1 as [|c s Hc _ IH]; simpl; [done|].
  unfold is_high_surrogate, is_low_surrogate, utf8_scalar.
  destruct (N.leb_spec 0xd800 c); [lia|].
  destruct (N.leb_spec 0xdc00 c); [lia|]. simpl.
  destruct (N.ltb_spec c 0x80); [|lia]. by rewrite IH.
Qed.

Lemma utf8_encode_ascii (s : jsstring) : ascii_only s → utf8_encode s = s.
Proof.
  intros Hs. unfold utf8_encode. rewrite (utf8_units_ascii s Hs).
  clear Hs. induction s as [|c s IH]; simpl; [done|]. by rewrite IH.
Qed.

Lemma stringToBytes_ascii (s : jsstring) : ascii_only s → stringToBytes s = Some s.
Proof.
  intros Hs. unfold stringToBytes. rewrite (utf8_units_ascii s Hs).
  clear Hs. induction s as [|c s IH]; simpl; [done|].
  destruct (mapM id (List.map (λ c0 : N, Some [c0]) s)) as [l|]; simpl in *;
    [|done].
  by inversion IH as [Heq]; rewrite Heq.
Qed.

Lemma utf8_decode_ascii (s : jsstring) : ascii_only s → utf8_decode s = s.
Proof.
  induction 1 as [|c s Hc _ IH]; simpl; [done|].
  destruct (N.ltb_spec c 0x80); [|lia]. by rewrite IH.
Qed.

Lemma ascii_only_app (a b : jsstring) :
  ascii_only a → ascii_only b → ascii_only (a ++ b).
Proof. apply Forall_app_2. Qed.

Lemma prepString_units (s : jsstring) :
  Forall (fun c => is_digit c || is_lower c = true) (prepString s).
Proof.
  unfold prepString, toLowerCase, replace_non_alnum.
  induction s as [|c s IH]; simpl; [constructor|].
  unfold non_alnum at 1. rewrite negb_involutive.
  destruct (is_digit c || is_lower c || is_upper c) eqn:Hc; [|done].
  simpl. constructor; [|done]. clear IH.
  unfold lower_unit, is_digit, is_lower, is_upper in *.
  destruct (N.leb_spec 65 c), (N.leb_spec c 90); simpl in *;
    rewrite ?orb_false_r in Hc; try done.
  destruct (N.leb_spec 97 (c + 32)), (N.leb_spec (c + 32) 122); try lia.
Qed.

Lemma prepString_ascii (s : jsstring) : ascii_only (prepString s).
Proof.
  eapply Forall_impl; [apply prepString_units|].
  intros c. unfold is_digit, is_lower. simpl.
  destruct (N.leb_spec 48 c), (N.leb_spec c 57), (N.leb_spec 97 c),
    (N.leb_spec c 122); simpl; try done; lia.
Qed.

Lemma idStr_of_ascii (name version : jsstring) (l : list ZenCrepesDependency) :
  ascii_only (idStr_of name version l).
Proof.
  unfold idStr_of.
  assert (ascii_only (prepString name ++ prepString version)) as Hinit
    by auto using ascii_only_app, prepString_ascii.
  revert Hinit. generalize (prepString name ++ prepString version).
  induction l as [|d l IH]; intros acc Hacc; simpl; [done|].
  apply IH. auto using ascii_only_app, prepString_ascii.
Qed.

Lemma uuidv5_ascii (s : jsstring) :
  ascii_only s → is_Some (uuidv5 s UUID_NAMESPACE).
Proof.
  intros Hs. unfold uuidv5. rewrite (stringToBytes_ascii s Hs). simpl.
  destruct (uuid_parse UUID_NAMESPACE) eqn:Hns; simpl; [eauto|].
  vm_compute in Hns. discriminate.
Qed.

Lemma deriveId_uuidv5 (name version : jsstring) (l : list ZenCrepesDependency) :
  uuidv5 (idStr_of name version (sort_deps l)) UUID_NAMESPACE
  = Some (deriveId name version l).
Proof.
  unfold deriveId.
  destruct (uuidv5_ascii _ (idStr_of_ascii name version (sort_deps l)))
    as [u ->]. done.
Qed.

(** ** Running the operations on a store *)

Ltac step :=
  unfold mbind, M_bind, mret, M_ret, throw, lift; simpl.

Lemma bind_run {A B : Type} (m : M A) (f : A → M B) (s : Store) :
  (m ≫= f) s
  = match m s with (inl e, s') => (inl e, s') | (inr x, s') => f x s' end.
Proof. done. Qed.

Lemma emit_lines_run (lines : list jsstring) (s : Store) :
  foldr (fun line k => emit (Log line);; k) (mret tt) lines s
  = (inr tt, mkStore (arrays s) (effects s ++ List.map Log lines)).
Proof.
  revert s. induction lines as [|line lines IH]; intros [a e]; simpl.
  { step. by rewrite app_nil_r. }
  rewrite bind_run. simpl. rewrite IH. simpl.
  by rewrite <- app_assoc.
Qed.

Lemma getId_run (name version : jsstring) (r : nat) (s : Store)
    (l : list ZenCrepesDependency) :
  arrays s !! r = Some l →
  getId name version r s
  = (inr (deriveId name version l),
     mkStore (<[r := sort_deps l]> (arrays s)) (effects s)).
Proof.
  intros Hr. unfold getId, Array_sort, Array_forEach, Array_read, Array_write.
  step. rewrite Hr. simpl.
  rewrite list_lookup_insert_eq by (by eapply lookup_lt_Some).
  fold (idStr_of name version (sort_deps l)).
  by rewrite deriveId_uuidv5.
Qed.

Lemma call_getId_deriveId (name version : jsstring)
    (l : list ZenCrepesDependency) :
  call_getId name version l = inr (deriveId name version l).
Proof.
  unfold call_getId. rewrite bind_run. simpl.
  by rewrite (getId_run _ _ _ _ l).
Qed.

Lemma fetchDependencies_run (w : World) (flags : Flags) (s : Store) :
  ∃ s', effects s' = effects s
    ∧ match resolve w flags with
      | inl e => fetchDependencies w flags s = (inl e, s')
      | inr (deps, v) =>
          ∃ r, fetchDependencies w flags s = (inr (r, v), s')
            ∧ arrays s' !! r = Some deps
      end.
Proof.
  unfold fetchDependencies, resolve, Array_push, Array_read, Array_write,
    Array_new.
  step.
  destruct (parse_dependencies w (f_dependencies flags)) as [explicit|]; simpl.
  2:{ by exists s. }
  destruct (f_versionFilepath flags) as [path|]; simpl.
  2:{ eexists. split; [|eexists; split; [reflexivity|]]; simpl; [done|].
      by apply list_lookup_middle. }
  destruct (readFileSync w path) as [versionFile|]; simpl.
  2:{ eexists. split; [|reflexivity]. done. }
  destruct (parse_versions w versionFile) as [m|]; simpl.
  2:{ eexists. split; [|reflexivity]. done. }
  rewrite !list_lookup_middle by done. simpl.
  rewrite list_lookup_insert_eq by (rewrite length_app; simpl; lia).
  eexists. split; [|eexists; split; [reflexivity|]]; simpl; [done|].
  rewrite list_lookup_middle by (by rewrite length_insert).
  unfold merged. by rewrite <- app_assoc.
Qed.

#[global] Arguments getId : simpl never.
#[global] Arguments fetchDependencies : simpl never.
#[global] Arguments buildPayload : simpl never.
#[global] Arguments preparePayload : simpl never.
#[global] Arguments deliver : simpl never.
#[global] Arguments json_node : simpl never.

Lemma preparePayload_run (w : World) (args : Args) (flags : Flags) (s : Store) :
  ∃ s',
    effects s'
    = effects s ++ List.map Log (ingestReport w (f_type flags) (a_file args)).1
    ∧ match (ingestReport w (f_type flags) (a_file args)).2 with
      | None => preparePayload w args flags s = (inl ReportParseError, s')
      | Some report =>
          match resolve w flags with
          | inl e => preparePayload w args flags s = (inl e, s')
          | inr (deps, v) =>
              ∃ r,
                preparePayload w args flags s
                = (inr (payload_of w flags report
                          (deriveId (f_name flags) (f_version flags) deps) r v),
                   s')
                ∧ arrays s' !! r = Some (sort_deps deps)
          end
      end.
Proof.
  unfold preparePayload, call_ingestReport.
  destruct (ingestReport w (f_type flags) (a_file args)) as [lines result].
  rewrite !bind_run, emit_lines_run. simpl.
  destruct result as [report|]; simpl.
  2:{ eexists. split; [|reflexivity]. done. }
  set (s1 := mkStore (arrays s) (effects s ++ List.map Log lines)).
  destruct (fetchDependencies_run w flags s1) as (s2 & He & Hf).
  rewrite bind_run.
  destruct (resolve w flags) as [e|[deps v]].
  { rewrite Hf. by exists s2. }
  destruct Hf as (r & -> & Hr).
  unfold buildPayload. rewrite bind_run, (getId_run _ _ _ _ deps Hr).
  eexists. split; [|exists r; split; [reflexivity|]]; simpl; [done|].
  apply list_lookup_insert_eq. by eapply lookup_lt_Some.
Qed.

(** ** The signature and the request *)

Lemma be_bytes_bound (n : nat) (x : N) : Forall (fun b => b < 256) (be_bytes n x).
Proof.
  induction n as [|n IH]; simpl; constructor; [|done].
  by apply N.mod_lt.
Qed.

Lemma sha1_bound (msg : bytes) : Forall (fun b => b < 256) (sha1 msg).
Proof.
  unfold sha1.
  destruct (sha1_blocks _ _ _) as [[[[h0 h1] h2] h3] h4].
  rewrite !Forall_app. auto using be_bytes_bound.
Qed.

Lemma hex_ascii (bs : bytes) : Forall (fun b => b < 256) bs → ascii_only (hex bs).
Proof.
  induction 1 as [|b bs Hb _ IH]; simpl; [constructor|].
  assert (∀ n, n < 16 → hex_digit n < 128) as Hd.
  { intros n Hn. unfold hex_digit. destruct (n <? 10); lia. }
  repeat constructor; [apply Hd..|done].
  - apply N.Div0.div_lt_upper_bound. lia.
  - by apply N.mod_lt.
Qed.

Lemma signature_ascii (key msg : bytes) :
  ascii_only (js "sha1=" ++ hex (hmac_sha1 key msg)).
Proof.
  apply ascii_only_app; [by repeat constructor|].
  apply hex_ascii, sha1_bound.
Qed.

#[global] Arguments sha1 : simpl never.
#[global] Arguments hmac_sha1 : simpl never.
#[global] Arguments hex : simpl never.
#[global] Arguments utf8_encode : simpl never.
#[global] Arguments utf8_decode : simpl never.
#[global] Arguments uuidv5 : simpl never.
#[global] Arguments js : simpl never.

Ltac mstep :=
  cbv beta iota zeta delta
    [mbind M_bind mret M_ret throw lift emit Array_read JSON_stringify
     arrays effects].

Lemma deliver_run (w : World) (args : Args) (p : ZenCrepesStateNode)
    (s : Store) (deps : list ZenCrepesDependency) :
  arrays s !! zc_dependencies p = Some deps →
  deliver w args p s
  = let text := json_node p deps in
    let body := utf8_encode text in
    let headers := headers_for (a_secret args) body in
    (if request w (a_payloadurl args) headers body then inr tt
     else inl DeliveryError,
     mkStore (arrays s)
       (effects s ++ [Log text; Post (a_payloadurl args) headers body])).
Proof.
  intros Hr. destruct s as [a e].
  unfold deliver, signature, SyncRequestClient_post.
  mstep. cbv beta iota delta [arrays] in Hr. repeat (rewrite Hr; mstep).
  rewrite utf8_encode_ascii, utf8_decode_ascii by apply signature_ascii.
  fold (headers_for (a_secret args) (utf8_encode (json_node p deps))).
  destruct (request _ _ _ _); by rewrite <- app_assoc.
Qed.

(** ** The whole command *)

Lemma run_spec (w : World) (args : Args) (flags : Flags) (s : Store) :
  ∃ s',
    match (ingestReport w (f_type flags) (a_file args)).2 with
    | None =>
        run w args flags s = (inl ReportParseError, s')
        ∧ effects s'
          = effects s
            ++ List.map Log (ingestReport w (f_type flags) (a_file args)).1
    | Some report =>
        match resolve w flags with
        | inl e =>
            run w args flags s = (inl e, s')
            ∧ effects s'
              = effects s
                ++ List.map Log (ingestReport w (f_type flags) (a_file args)).1
        | inr (deps, v) =>
            ∃ r,
              let p := payload_of w flags report
                         (deriveId (f_name flags) (f_version flags) deps) r v in
              let text := json_node p (sort_deps deps) in
              let body := utf8_encode text in
              let headers := headers_for (a_secret args) body in
              (preparePayload w args flags s).1 = inr p
              ∧ run w args flags s
                = (if request w (a_payloadurl args) headers body then inr tt
                   else inl DeliveryError, s')
              ∧ effects s'
                = effects s
                  ++ List.map Log (ingestReport w (f_type flags) (a_file args)).1
                  ++ [Log text; Post (a_payloadurl args) headers body]
        end
    end.
Proof.
  unfold run. rewrite bind_run.
  destruct (preparePayload_run w args flags s) as (s1 & He & Hp).
  destruct (ingestReport w (f_type flags) (a_file args)).2 as [report|].
  2:{ rewrite Hp. by exists s1. }
  destruct (resolve w flags) as [e|[deps v]].
  { rewrite Hp. by exists s1. }
  destruct Hp as (r & -> & Hr).
  rewrite (deliver_run _ _ _ _ (sort_deps deps)) by done.
  eexists. exists r. cbv zeta. split; [reflexivity|]. split; [reflexivity|].
  cbn [effects]. by rewrite He, <- app_assoc.
Qed.

(** The scenario of the specification: name [Jahia], version [SNAPSHOT], no
    dependency, no version file, five tests without failure. *)
Example preparePayload_end_to_end :
  (preparePayload
     (sample_world_with (Some (mkReport 5 0 (mkDouble (js "12.3")))))
     sample_args
     (mkFlags (js "xml") (js "Jahia") (js "SNAPSHOT") (js "[]") (js "") None)
     (mkStore [] [])).1
  = inr {| zc_id := js "afaf8f9c-2ab6-5e3a-a1f0-10e8d428e611";
           zc_name := js "Jahia";
           zc_version := js "SNAPSHOT";
           zc_dependencies := 0%nat;
           zc_createdAt := js "2021-01-01T00:00:00.000Z";
           zc_state := js "PASS";
           zc_url := js "";
           zc_runTotal := 5;
           zc_runSuccess := Finite 5;
           zc_runFailure := 0;
           zc_runDuration := mkDouble (js "12.3") |}.
Proof. by vm_compute. Qed.

(** ** The command on JSON values *)

#[global] Arguments Untyped.getId : simpl never.
#[global] Arguments Untyped.fetchDependencies : simpl never.
#[global] Arguments Untyped.buildPayload : simpl never.
#[global] Arguments Untyped.preparePayload : simpl never.
#[global] Arguments Untyped.deliver : simpl never.
#[global] Arguments Untyped.json_node : simpl never.
#[global] Arguments Untyped.jahia_version : simpl never.
#[global] Arguments Untyped.declared_dependencies : simpl never.
#[global] Arguments Untyped.module_version : simpl never.

Ltac ustep :=
  cbv beta iota zeta delta
    [mbind Untyped.M_bind mret Untyped.M_ret Untyped.throw Untyped.lift
     Untyped.eval Untyped.emit Untyped.the_array Untyped.Array_read
     Untyped.Array_write Untyped.Array_new Untyped.JSON_stringify
     Untyped.arrays Untyped.effects].

Lemma untyped_bind_run {A B : Type} (m : Untyped.M A) (f : A → Untyped.M B)
    (s : Untyped.Store) :
  (m ≫= f) s
  = match m s with (inl e, s') => (inl e, s') | (inr x, s') => f x s' end.
Proof. done. Qed.

Lemma untyped_emit_lines_run (lines : list jsstring) (s : Untyped.Store) :
  foldr (fun line k => Untyped.emit (Log line);; k) (mret tt) lines s
  = (inr tt,
     Untyped.mkStore (Untyped.arrays s)
       (Untyped.effects s ++ List.map Log lines)).
Proof.
  revert s. induction lines as [|line lines IH]; intros [a e]; simpl.
  { ustep. by rewrite app_nil_r. }
  rewrite untyped_bind_run. simpl. rewrite IH. simpl.
  by rewrite <- app_assoc.
Qed.

Lemma untyped_idStr_ascii (name version : jsstring) (l : list Untyped.json) :
  ascii_only (Untyped.idStr_of name version l).
Proof.
  unfold Untyped.idStr_of.
  assert (ascii_only (prepString name ++ prepString version)) as Hinit
    by auto using ascii_only_app, prepString_ascii.
  revert Hinit. generalize (prepString name ++ prepString version).
  induction l as [|d l IH]; intros acc Hacc; simpl; [done|].
  apply IH. apply ascii_only_app; [done|]. unfold Untyped.element_text.
  destruct (Untyped.as_dependency d);
    [auto using ascii_only_app, prepString_ascii|constructor].
Qed.

Lemma untyped_deriveId_uuidv5 (name version : jsstring) (l : list Untyped.json) :
  uuidv5 (Untyped.idStr_of name version (Untyped.sort_deps l)) UUID_NAMESPACE
  = Some (Untyped.deriveId name version l).
Proof.
  unfold Untyped.deriveId.
  destruct (uuidv5_ascii _ (untyped_idStr_ascii name version (Untyped.sort_deps l)))
    as [u ->]. done.
Qed.

(** [getId] on an array: the identifier and the array sorted, or a
    [TypeError]. *)
Lemma untyped_getId_run (w : Untyped.World) (name version : jsstring)
    (r : nat) (s : Untyped.Store) (l : list Untyped.json) :
  Untyped.arrays s !! r = Some l →
  Untyped.getId w name version (Untyped.ArrayRef r) s
  = if Untyped.well_typed l
    then (inr (Untyped.deriveId name version l),
          Untyped.mkStore (<[r := Untyped.sort_deps l]> (Untyped.arrays s))
            (Untyped.effects s))
    else (inl TypeError,
          Untyped.mkStore (<[r := Untyped.engine_sort w l]> (Untyped.arrays s))
            (Untyped.effects s)).
Proof.
  intros Hr. destruct s as [a e]. cbn [Untyped.arrays Untyped.effects] in *.
  unfold Untyped.getId. ustep. rewrite Hr.
  fold (Untyped.well_typed l). destruct (Untyped.well_typed l); [|done].
  ustep.
  rewrite list_lookup_insert_eq by (by eapply lookup_lt_Some).
  fold (Untyped.sort_deps l).
  fold (Untyped.idStr_of name version (Untyped.sort_deps l)).
  by rewrite untyped_deriveId_uuidv5.
Qed.

(** The expressions of lines 100 to 102 throw nothing but a [TypeError]. *)
Lemma untyped_Get_error (v : option Untyped.json) (key : jsstring) (e : Error) :
  Untyped.Get v key = inl e → e = TypeError.
Proof. destruct v as [[]|]; simpl; congruence. Qed.

Lemma untyped_template_error (v : option Untyped.json) (e : Error) :
  Untyped.template v = inl e → e = TypeError.
Proof.
  unfold Untyped.template. destruct v as [j|]; [|done].
  destruct (Untyped.ToString j); congruence.
Qed.

Lemma untyped_jahia_version_error (version : Untyped.json) (e : Error) :
  Untyped.jahia_version version = inl e → e = TypeError.
Proof.
  unfold Untyped.jahia_version.
  destruct (Untyped.Get (Some version) _) as [e1|jahia] eqn:H1;
    [intros [= <-]; eauto using untyped_Get_error|].
  destruct (Untyped.Get jahia (js "version")) as [e2|v] eqn:H2;
    [intros [= <-]; eauto using untyped_Get_error|].
  destruct (Untyped.template v) as [e3|vtext] eqn:H3;
    [intros [= <-]; eauto using untyped_template_error|].
  destruct (Untyped.Get jahia (js "build")) as [e4|b] eqn:H4;
    [intros [= <-]; eauto using untyped_Get_error|].
  destruct (Untyped.template b) as [e5|btext] eqn:H5;
    [intros [= <-]; eauto using untyped_template_error|done].
Qed.

Lemma untyped_declared_dependencies_error (version : Untyped.json) (e : Error) :
  Untyped.declared_dependencies version = inl e → e = TypeError.
Proof.
  unfold Untyped.declared_dependencies.
  destruct (Untyped.Get (Some version) _) as [e1|v] eqn:H1;
    [intros [= <-]; eauto using untyped_Get_error|].
  destruct v as [[]|]; simpl; congruence.
Qed.

Lemma untyped_module_version_error (version : Untyped.json) (e : Error) :
  Untyped.module_version version = inl e → e = TypeError.
Proof.
  unfold Untyped.module_version.
  destruct (Untyped.Get (Some version) _) as [e1|v] eqn:H1;
    [intros [= <-]; eauto using untyped_Get_error|].
  apply untyped_Get_error.
Qed.

(** Lines 95 to 103 on a store. *)
Lemma untyped_fetchDependencies_run (w : Untyped.World) (flags : Flags)
    (s : Untyped.Store) :
  ∃ s', Untyped.effects s' = Untyped.effects s
    ∧ match Untyped.resolve w flags with
      | inr (deps, v) =>
          ∃ r, Untyped.fetchDependencies w flags s
               = (inr (Untyped.ArrayRef r, v), s')
            ∧ Untyped.arrays s' !! r = Some deps
      | inl e =>
          Untyped.fetchDependencies w flags s = (inl e, s')
          ∨ (e = TypeError
             ∧ ∃ j v, Untyped.fetchDependencies w flags s
                      = (inr (Untyped.Json j, v), s'))
      end.
Proof.
  destruct s as [a ev]. cbn [Untyped.arrays Untyped.effects].
  unfold Untyped.fetchDependencies, Untyped.resolve, Untyped.parse_dependencies.
  ustep.
  destruct (Untyped.JSON_parse w (f_dependencies flags)) as [parsed|].
  2:{ eexists. split; [|left; reflexivity]. done. }
  destruct (f_versionFilepath flags) as [path|].
  2:{ destruct parsed; ustep;
        try (eexists; split; [|right; split; [done|]; eexists _, _; reflexivity]; done).
      eexists. split; [|eexists; split; [reflexivity|]]; [done|].
      by apply list_lookup_middle. }
  destruct (Untyped.readFileSync w path) as [versionFile|].
  2:{ destruct parsed; ustep; eexists; (split; [|left; reflexivity]); done. }
  destruct (Untyped.JSON_parse w (utf8_decode versionFile)) as [version|].
  2:{ destruct parsed; ustep; eexists; (split; [|left; reflexivity]); done. }
  destruct parsed as [| | | |l|]; ustep;
    try (eexists; (split; [|left; reflexivity]); done).
  destruct (Untyped.jahia_version version) as [e|text] eqn:Hj; ustep.
  { apply untyped_jahia_version_error in Hj as ->.
    eexists; (split; [|left; reflexivity]); done. }
  rewrite !list_lookup_middle by done. ustep.
  rewrite list_lookup_insert_eq by (rewrite length_app; simpl; lia).
  destruct (Untyped.declared_dependencies version) as [e|declared] eqn:Hd;
    ustep.
  { apply untyped_declared_dependencies_error in Hd as ->.
    eexists; (split; [|left; reflexivity]); done. }
  destruct (Untyped.module_version version) as [e|v] eqn:Hm; ustep.
  { apply untyped_module_version_error in Hm as ->.
    eexists; (split; [|left; reflexivity]); done. }
  eexists. split; [|eexists; split; [reflexivity|]]; [done|].
  cbn [Untyped.arrays].
  rewrite list_lookup_middle by (by rewrite length_insert).
  by rewrite <- app_assoc.
Qed.

Lemma untyped_preparePayload_run (w : Untyped.World) (args : Args)
    (flags : Flags) (s : Untyped.Store) :
  ∃ s',
    Untyped.effects s'
    = Untyped.effects s
      ++ List.map Log (Untyped.ingestReport w (f_type flags) (a_file args)).1
    ∧ match (Untyped.ingestReport w (f_type flags) (a_file args)).2 with
      | None =>
          Untyped.preparePayload w args flags s = (inl ReportParseError, s')
      | Some report =>
          match Untyped.resolve w flags with
          | inl e => Untyped.preparePayload w args flags s = (inl e, s')
          | inr (deps, v) =>
              if Untyped.well_typed deps then
                ∃ r,
                  Untyped.preparePayload w args flags s
                  = (inr (Untyped.payload_of w flags report
                            (Untyped.deriveId (f_name flags) (f_version flags)
                               deps) r v),
                     s')
                  ∧ Untyped.arrays s' !! r = Some (Untyped.sort_deps deps)
              else
                Untyped.preparePayload w args flags s = (inl TypeError, s')
          end
      end.
Proof.
  unfold Untyped.preparePayload, Untyped.call_ingestReport.
  destruct (Untyped.ingestReport w (f_type flags) (a_file args))
    as [lines result].
  rewrite !untyped_bind_run, untyped_emit_lines_run. simpl.
  destruct result as [report|]; simpl.
  2:{ eexists. split; [|reflexivity]. done. }
  set (s1 := Untyped.mkStore (Untyped.arrays s)
               (Untyped.effects s ++ List.map Log lines)).
  destruct (untyped_fetchDependencies_run w flags s1) as (s2 & He & Hf).
  rewrite untyped_bind_run.
  destruct (Untyped.resolve w flags) as [e|[deps v]].
  { destruct Hf as [Hf|(-> & j & v & Hf)]; rewrite Hf; [by exists s2|].
    exists s2. split; [done|]. unfold Untyped.buildPayload, Untyped.getId.
    by ustep. }
  destruct Hf as (r & -> & Hr).
  unfold Untyped.buildPayload.
  rewrite untyped_bind_run, (untyped_getId_run _ _ _ _ _ deps Hr).
  destruct (Untyped.well_typed deps).
  - eexists. split; [|exists r; split; [reflexivity|]]; simpl; [done|].
    apply list_lookup_insert_eq. by eapply lookup_lt_Some.
  - eexists. split; [|reflexivity]. done.
Qed.

Lemma untyped_deliver_run (w : Untyped.World) (args : Args)
    (p : Untyped.ZenCrepesStateNode) (s : Untyped.Store)
    (deps : list Untyped.json) :
  Untyped.arrays s !! Untyped.zc_dependencies p = Some deps →
  Untyped.deliver w args p s
  = let text := Untyped.json_node p deps in
    let body := utf8_encode text in
    let headers := headers_for (a_secret args) body in
    (if Untyped.request w (a_payloadurl args) headers body then inr tt
     else inl DeliveryError,
     Untyped.mkStore (Untyped.arrays s)
       (Untyped.effects s
        ++ [Log text; Post (a_payloadurl args) headers body])).
Proof.
  intros Hr. destruct s as [a e].
  unfold Untyped.deliver, Untyped.signature, Untyped.SyncRequestClient_post.
  ustep. cbv beta iota delta [Untyped.arrays] in Hr.
  repeat (rewrite Hr; ustep).
  rewrite utf8_encode_ascii, utf8_decode_ascii by apply signature_ascii.
  fold (headers_for (a_secret args) (utf8_encode (Untyped.json_node p deps))).
  destruct (Untyped.request _ _ _ _); by rewrite <- app_assoc.
Qed.

Lemma untyped_run_spec (w : Untyped.World) (args : Args) (flags : Flags)
    (s : Untyped.Store) :
  let lines := (Untyped.ingestReport w (f_type flags) (a_file args)).1 in
  ∃ s',
    match (Untyped.ingestReport w (f_type flags) (a_file args)).2 with
    | None =>
        Untyped.run w args flags s = (inl ReportParseError, s')
        ∧ Untyped.effects s' = Untyped.effects s ++ List.map Log lines
    | Some report =>
        match Untyped.resolve w flags with
        | inl e =>
            Untyped.run w args flags s = (inl e, s')
            ∧ Untyped.effects s' = Untyped.effects s ++ List.map Log lines
        | inr (deps, v) =>
            if Untyped.well_typed deps then
              ∃ r,
                let p := Untyped.payload_of w flags report
                           (Untyped.deriveId (f_name flags) (f_version flags)
                              deps) r v in
                let text := Untyped.json_node p (Untyped.sort_deps deps) in
                let body := utf8_encode text in
                let headers := headers_for (a_secret args) body in
                (Untyped.preparePayload w args flags s).1 = inr p
                ∧ Untyped.run w args flags s
                  = (if Untyped.request w (a_payloadurl args) headers body
                     then inr tt else inl DeliveryError, s')
                ∧ Untyped.effects s'
                  = Untyped.effects s ++ List.map Log lines
                    ++ [Log text; Post (a_payloadurl args) headers body]
            else
              Untyped.run w args flags s = (inl TypeError, s')
              ∧ Untyped.effects s' = Untyped.effects s ++ List.map Log lines
        end
    end.
Proof.
  cbv zeta. unfold Untyped.run. rewrite untyped_bind_run.
  destruct (untyped_preparePayload_run w args flags s) as (s1 & He & Hp).
  destruct (Untyped.ingestReport w (f_type flags) (a_file args)).2
    as [report|].
  2:{ rewrite Hp. by exists s1. }
  destruct (Untyped.resolve w flags) as [e|[deps v]].
  { rewrite Hp. by exists s1. }
  destruct (Untyped.well_typed deps).
  2:{ rewrite Hp. by exists s1. }
  destruct Hp as (r & -> & Hr).
  rewrite (untyped_deliver_run _ _ _ _ (Untyped.sort_deps deps)) by done.
  eexists. exists r. split; [reflexivity|]. split; [reflexivity|].
  cbn [Untyped.effects]. by rewrite He, <- app_assoc.
Qed.


(** An error of lines 95 to 103, or of [sort] on what is no array, and its
    cause. *)
Lemma untyped_resolve_error (w : Untyped.World) (flags : Flags) (e : Error) :
  Untyped.resolve w flags = inl e →
  (e = DependenciesError
   ∧ Untyped.JSON_parse w (f_dependencies flags) = None)
  ∨ (e = ManifestReadError
     ∧ ∃ path, f_versionFilepath flags = Some path
         ∧ Untyped.readFileSync w path = None)
  ∨ (e = ManifestParseError
     ∧ ∃ path versionFile,
         f_versionFilepath flags = Some path
         ∧ Untyped.readFileSync w path = Some versionFile
         ∧ Untyped.JSON_parse w (utf8_decode versionFile) = None)
  ∨ (e = TypeError
     ∧ ∃ parsed,
         Untyped.JSON_parse w (f_dependencies flags) = Some parsed
         ∧ ((∀ l, parsed ≠ Untyped.JArray l)
            ∨ ∃ path versionFile version,
                f_versionFilepath flags = Some path
                ∧ Untyped.readFileSync w path = Some versionFile
                ∧ Untyped.JSON_parse w (utf8_decode versionFile) = Some version
                ∧ (Untyped.jahia_version version = inl TypeError
                   ∨ Untyped.declared_dependencies version = inl TypeError
                   ∨ Untyped.module_version version = inl TypeError))).
Proof.
  unfold Untyped.resolve.
  destruct (Untyped.JSON_parse w (f_dependencies flags)) as [parsed|];
    [|intros [= <-]; by left].
  destruct (f_versionFilepath flags) as [path|].
  2:{ destruct parsed; intros [= <-]; do 3 right;
        (split; [done|]); eexists; (split; [done|]); by left. }
  destruct (Untyped.readFileSync w path) as [versionFile|] eqn:Hfile;
    [|intros [= <-]; right; left; eauto].
  destruct (Untyped.JSON_parse w (utf8_decode versionFile)) as [version|]
    eqn:Hversion; [|intros [= <-]; right; right; left; eauto 6].
  intros He. do 3 right.
  assert (e = TypeError) as ->.
  { destruct parsed, (Untyped.jahia_version version),
      (Untyped.declared_dependencies version),
      (Untyped.module_version version); congruence. }
  split; [done|]. exists parsed. split; [done|].
  destruct parsed as [| | | |l|]; try (by left).
  right. exists path, versionFile, version. do 3 (split; [done|]).
  destruct (Untyped.jahia_version version) as [e1|text] eqn:Hj.
  { left. by rewrite (untyped_jahia_version_error _ _ Hj). }
  destruct (Untyped.declared_dependencies version) as [e2|declared] eqn:Hd.
  { right; left. by rewrite (untyped_declared_dependencies_error _ _ Hd). }
  destruct (Untyped.module_version version) as [e3|v] eqn:Hm; [|done].
  right; right. by rewrite (untyped_module_version_error _ _ Hm).
Qed.

(** ** Values of the declared types in the command on JSON values *)

Lemma list_eqb_eq (a b : list N) : list_eqb a b = true → a = b.
Proof.
  revert b. induction a as [|x a IH]; intros [|y b]; simpl; try done.
  intros [Hx Hab]%andb_prop. apply N.eqb_eq in Hx as ->. by rewrite (IH b).
Qed.

Lemma dependency_of_json_inv (j : Untyped.json) (d : ZenCrepesDependency) :
  dependency_of_json j = Some d → j = json_of_dependency d.
Proof.
  unfold dependency_of_json, json_of_dependency.
  destruct j as [| | | | |members]; try done.
  destruct members as [|[k1 [| | |n| |]] [|[k2 [| | |v| |]] [|]]]; try done.
  destruct (list_eqb k1 (js "name")) eqn:H1; [|done].
  destruct (list_eqb k2 (js "version")) eqn:H2; [|done].
  apply list_eqb_eq in H1 as ->. apply list_eqb_eq in H2 as ->.
  by intros [= <-].
Qed.

Lemma dependencies_of_json_inv (j : Untyped.json)
    (l : list ZenCrepesDependency) :
  dependencies_of_json j = Some l →
  j = Untyped.JArray (List.map json_of_dependency l).
Proof.
  destruct j as [| | | |elements|]; try done. simpl. intros Hl. f_equal.
  revert l Hl. induction elements as [|e elements IH]; intros l; simpl.
  { by intros [= <-]. }
  destruct (dependency_of_json e) as [d|] eqn:He; [|done]. simpl.
  destruct (mapM dependency_of_json elements) as [ds|]; [|done]. simpl.
  intros [= <-]. simpl.
  by rewrite (dependency_of_json_inv e d He), (IH ds eq_refl).
Qed.

Lemma as_dependency_json (d : ZenCrepesDependency) :
  Untyped.as_dependency (json_of_dependency d) = Some d.
Proof. by destruct d. Qed.

Lemma well_typed_json (l : list ZenCrepesDependency) :
  Untyped.well_typed (List.map json_of_dependency l) = true.
Proof.
  unfold Untyped.well_typed. apply forallb_forall. intros j Hj.
  apply in_map_iff in Hj as (d & <- & _). rewrite as_dependency_json.
  apply bool_decide_eq_true. eauto.
Qed.

Lemma compareElements_json (a b : ZenCrepesDependency) :
  Untyped.compareElements (json_of_dependency a) (json_of_dependency b)
  = compareDeps a b.
Proof. unfold Untyped.compareElements. by rewrite !as_dependency_json. Qed.

Lemma sort_insert_json (d : ZenCrepesDependency)
    (l : list ZenCrepesDependency) :
  sort_insert Untyped.compareElements (json_of_dependency d)
    (List.map json_of_dependency l)
  = List.map json_of_dependency (sort_insert compareDeps d l).
Proof.
  induction l as [|y l IH]; [done|]. cbn [List.map sort_insert].
  rewrite compareElements_json.
  destruct (compareDeps d y <=? 0)%Z; [done|]. cbn [List.map]. by rewrite IH.
Qed.

Lemma sort_deps_json (l : list ZenCrepesDependency) :
  Untyped.sort_deps (List.map json_of_dependency l)
  = List.map json_of_dependency (sort_deps l).
Proof.
  unfold Untyped.sort_deps.
  induction l as [|d l IH]; [done|]. cbn [List.map sort_elements].
  by rewrite IH, sort_insert_json.
Qed.

Lemma idStr_of_json (name version : jsstring) (l : list ZenCrepesDependency) :
  Untyped.idStr_of name version (List.map json_of_dependency l)
  = idStr_of name version l.
Proof.
  unfold Untyped.idStr_of, idStr_of.
  generalize (prepString name ++ prepString version).
  induction l as [|d l IH]; intros acc; [done|]. cbn [List.map fold_left].
  rewrite IH. unfold Untyped.element_text. by rewrite as_dependency_json.
Qed.

Lemma deriveId_json (name version : jsstring) (l : list ZenCrepesDependency) :
  Untyped.deriveId name version (List.map json_of_dependency l)
  = deriveId name version l.
Proof.
  unfold Untyped.deriveId, deriveId. by rewrite sort_deps_json, idStr_of_json.
Qed.

Lemma json_text_dependency (d : ZenCrepesDependency) :
  Untyped.json_text (json_of_dependency d) = json_dependency d.
Proof.
  unfold json_of_dependency, json_dependency, json_member.
  cbn [Untyped.json_text List.map json_elements fst snd].
  unfold json_member. by rewrite <- !app_assoc.
Qed.

Lemma json_text_dependencies (l : list ZenCrepesDependency) :
  Untyped.json_text (Untyped.JArray (List.map json_of_dependency l))
  = json_array l.
Proof.
  unfold json_array. cbn [Untyped.json_text]. rewrite List.map_map.
  by rewrite (List.map_ext _ _ json_text_dependency).
Qed.

Lemma json_node_json (w : Untyped.World) (flags : Flags) (report : Report)
    (uuid v : jsstring) (r r' : nat) (l : list ZenCrepesDependency) :
  Untyped.json_node
    (Untyped.payload_of w flags report uuid r (Some (Untyped.JString v)))
    (List.map json_of_dependency l)
  = json_node (payload_of (typed_world w) flags report uuid r' v) l.
Proof.
  unfold Untyped.json_node, json_node, Untyped.payload_of, payload_of.
  cbn [Untyped.zc_id Untyped.zc_name Untyped.zc_version Untyped.zc_createdAt
       Untyped.zc_state Untyped.zc_url Untyped.zc_runTotal
       Untyped.zc_runSuccess Untyped.zc_runFailure Untyped.zc_runDuration
       zc_id zc_name zc_version zc_createdAt zc_state zc_url zc_runTotal
       zc_runSuccess zc_runFailure zc_runDuration app].
  rewrite json_text_dependencies. reflexivity.
Qed.

Lemma versions_of_json_inv (j : Untyped.json) (m : UtilsVersions) :
  versions_of_json j = Some m →
  Untyped.jahia_version j
  = inr (v_jahia_version m ++ js "-" ++ v_jahia_build m)
  ∧ Untyped.declared_dependencies j
    = inr (List.map json_of_dependency (v_dependencies m))
  ∧ Untyped.module_version j
    = inr (Some (Untyped.JString (v_module_version m))).
Proof.
  unfold versions_of_json, Untyped.jahia_version,
    Untyped.declared_dependencies, Untyped.module_version, string_member,
    object_member.
  destruct j as [| | | | |members]; try done. cbn [Untyped.Get mbind option_bind].
  destruct (Untyped.lookup_member (js "jahia") members) as [jahia|]; [|done].
  cbn [mbind option_bind].
  destruct jahia as [| | | | |jm]; try done. cbn [Untyped.Get].
  destruct (Untyped.lookup_member (js "version") jm) as [[| | |jv| |]|];
    try done.
  cbn [mbind option_bind].
  destruct (Untyped.lookup_member (js "build") jm) as [[| | |jb| |]|];
    try done.
  cbn [mbind option_bind].
  destruct (Untyped.lookup_member (js "module") members) as [module|]; [|done].
  cbn [mbind option_bind].
  destruct module as [| | | | |mm]; try done. cbn [Untyped.Get].
  destruct (Untyped.lookup_member (js "version") mm) as [[| | |mv| |]|];
    try done.
  cbn [mbind option_bind].
  destruct (Untyped.lookup_member (js "dependencies") members) as [deps|];
    [|done].
  cbn [mbind option_bind].
  destruct (dependencies_of_json deps) as [l|] eqn:Hl; [|done].
  cbn [mbind option_bind]. intros [= <-].
  rewrite (dependencies_of_json_inv deps l Hl). done.
Qed.

(** On JSON of the declared types, lines 95 to 103 compute the same
    dependencies and the same version with and without the types. *)
Lemma resolve_json (w : Untyped.World) (flags : Flags) :
  of_declared_types w flags →
  Untyped.resolve w flags
  = match resolve (typed_world w) flags with
    | inl e => inl e
    | inr (deps, v) =>
        inr (List.map json_of_dependency deps, Some (Untyped.JString v))
    end.
Proof.
  intros [Hd Hv]. unfold Untyped.resolve, resolve.
  cbn [parse_dependencies parse_versions readFileSync typed_world].
  destruct (Untyped.JSON_parse w (f_dependencies flags)) as [parsed|];
    [|done].
  destruct (Hd parsed eq_refl) as [explicit He]. cbn [mbind option_bind].
  rewrite He. rewrite (dependencies_of_json_inv parsed explicit He).
  destruct (f_versionFilepath flags) as [path|]; [|done].
  destruct (Untyped.readFileSync w path) as [versionFile|] eqn:Hfile; [|done].
  destruct (Untyped.JSON_parse w (utf8_decode versionFile)) as [version|]
    eqn:Hversion; [|done].
  destruct (Hv path versionFile version eq_refl Hfile Hversion) as [m Hm].
  cbn [mbind option_bind]. rewrite Hm.
  destruct (versions_of_json_inv version m Hm) as (-> & -> & ->).
  unfold merged. by rewrite !List.map_app.
Qed.

Lemma well_typed_Forall (l : list Untyped.json) :
  Untyped.well_typed l = true
  ↔ Forall (fun d => is_Some (Untyped.as_dependency d)) l.
Proof.
  unfold Untyped.well_typed. induction l as [|d l IH]; simpl.
  { split; [constructor|done]. }
  rewrite andb_true_iff, bool_decide_eq_true, IH, Forall_cons. done.
Qed.

Lemma sort_insert_Forall {A : Type} (cmp : A → A → Z) (P : A → Prop) (x : A)
    (l : list A) :
  P x → Forall P l → Forall P (sort_insert cmp x l).
Proof.
  intros Hx. induction 1 as [|y l Hy Hl IH]; simpl; [by constructor|].
  destruct (cmp x y <=? 0)%Z; repeat constructor; done.
Qed.

Lemma sort_elements_Forall {A : Type} (cmp : A → A → Z) (P : A → Prop)
    (l : list A) :
  Forall P l → Forall P (sort_elements cmp l).
Proof.
  induction 1 as [|x l Hx Hl IH]; simpl; [constructor|].
  by apply sort_insert_Forall.
Qed.

Lemma sort_insert_name_version (x : Untyped.json) (l : list Untyped.json) :
  is_Some (Untyped.as_dependency x) →
  Forall (fun d => is_Some (Untyped.as_dependency d)) l →
  name_version <$> sort_insert Untyped.compareElements x l
  = sort_insert compareDeps (name_version x) (name_version <$> l).
Proof.
  intros [dx Hx]. induction 1 as [|y l [dy Hy] Hl IH]; [done|].
  cbn [fmap list_fmap sort_insert].
  replace (Untyped.compareElements x y)
    with (compareDeps (name_version x) (name_version y))
    by (unfold Untyped.compareElements, name_version; by rewrite Hx, Hy).
  destruct (compareDeps _ _ <=? 0)%Z; [done|].
  cbn [fmap list_fmap]. f_equal. exact IH.
Qed.

Lemma sort_deps_name_version (l : list Untyped.json) :
  Forall (fun d => is_Some (Untyped.as_dependency d)) l →
  name_version <$> Untyped.sort_deps l = sort_deps (name_version <$> l).
Proof.
  unfold Untyped.sort_deps.
  induction 1 as [|x l Hx Hl IH]; [done|]. cbn [fmap list_fmap sort_elements].
  rewrite <- IH. apply sort_insert_name_version; [done|].
  by apply sort_elements_Forall.
Qed.

Lemma idStr_of_name_version (name version : jsstring) (l : list Untyped.json) :
  Forall (fun d => is_Some (Untyped.as_dependency d)) l →
  Untyped.idStr_of name version l = idStr_of name version (name_version <$> l).
Proof.
  unfold Untyped.idStr_of, idStr_of.
  generalize (prepString name ++ prepString version).
  intros acc H. revert acc.
  induction H as [|d l [x Hx] Hl IH]; intros acc; [done|].
  cbn [fmap list_fmap fold_left]. rewrite IH.
  unfold Untyped.element_text, name_version. by rewrite Hx.
Qed.

(** * The claims *)

(** ** Identity derivation *)

(** C2. Order-independence of identity derivation: [getId(n, v, [d1, d2])]
    equals [getId(n, v, [d2, d1])] for any two dependencies, and more
    generally two arrays holding the same dependencies in any order, fresh
    or stored, give the same identifier (and [getId] does return one). *)
Theorem getId_order_independence (n v : jsstring) (d1 d2 : ZenCrepesDependency)
    (l1 l2 : list ZenCrepesDependency) (r1 r2 : nat) (s1 s2 : Store) :
  call_getId n v [d1; d2] = call_getId n v [d2; d1]
  ∧ (l1 ≡ₚ l2 →
     (∃ u, call_getId n v l1 = inr u ∧ call_getId n v l2 = inr u)
     ∧ (arrays s1 !! r1 = Some l1 → arrays s2 !! r2 = Some l2 →
        (getId n v r1 s1).1 = (getId n v r2 s2).1)).
Proof.
  split.
  { rewrite !call_getId_deriveId. unfold deriveId.
    by rewrite (sort_deps_perm [d1; d2] [d2; d1]) by apply Permutation_swap. }
  intros Hp. split.
  { exists (deriveId n v l1). rewrite !call_getId_deriveId. unfold deriveId.
    by rewrite (sort_deps_perm l1 l2). }
  intros H1 H2. rewrite (getId_run _ _ _ _ _ H1), (getId_run _ _ _ _ _ H2).
  simpl. unfold deriveId. by rewrite (sort_deps_perm l1 l2).
Qed.

Lemma getId_order_independence_witness :
  call_getId (js "My-Mod") (js "1.0.0") [zeta; Alpha; beta]
  = call_getId (js "My-Mod") (js "1.0.0") [beta; zeta; Alpha]
  ∧ (getId (js "My-Mod") (js "1.0.0") 0 (mkStore [[zeta; Alpha; beta]] [])).1
    = (getId (js "My-Mod") (js "1.0.0") 1
         (mkStore [[]; [beta; zeta; Alpha]] [])).1.
Proof.
  assert ([zeta; Alpha; beta] ≡ₚ [beta; zeta; Alpha]) as Hp.
  { apply (Permutation_app_comm [zeta; Alpha] [beta]). }
  destruct (getId_order_independence (js "My-Mod") (js "1.0.0") zeta Alpha
              [zeta; Alpha; beta] [beta; zeta; Alpha] 0 1
              (mkStore [[zeta; Alpha; beta]] [])
              (mkStore [[]; [beta; zeta; Alpha]] [])) as [_ H].
  destruct (H Hp) as [(u & -> & ->) Hs].
  split; [reflexivity|].
  apply Hs; reflexivity.
Defined.

(** C5. Normalization insensitivity: [prepString] drops every code unit
    that is not an ASCII letter or digit and lower-cases the rest, so
    ["My-Mod"], ["1.0.0"] and ["mymod"], ["100"] give the same identifier;
    inputs that normalize identically give the same identifier. *)
Theorem prepString_insensitivity (c : N) (s n1 v1 n2 v2 : jsstring)
    (l : list ZenCrepesDependency) :
  prepString (c :: s)
  = (if non_alnum c then prepString s
     else (if is_upper c then c + 32 else c) :: prepString s)
  ∧ Forall (fun c => is_digit c || is_lower c = true) (prepString s)
  ∧ prepString (js "My-Mod") = js "mymod"
  ∧ prepString (js "1.0.0") = js "100"
  ∧ call_getId (js "My-Mod") (js "1.0.0") []
    = inr (js "97eba390-de14-5458-8bfc-8670a50a165c")
  ∧ call_getId (js "mymod") (js "100") []
    = call_getId (js "My-Mod") (js "1.0.0") []
  ∧ (prepString n1 = prepString n2 → prepString v1 = prepString v2 →
     call_getId n1 v1 l = call_getId n2 v2 l).
Proof.
  split.
  { unfold prepString, toLowerCase, replace_non_alnum. simpl.
    by destruct (non_alnum c). }
  split; [apply prepString_units|].
  do 4 (split; [by vm_compute|]).
  intros Hn Hv. rewrite !call_getId_deriveId. unfold deriveId, idStr_of.
  by rewrite Hn, Hv.
Qed.

Lemma prepString_insensitivity_witness :
  call_getId (js "J-a.h_i A") (js "8.0") [zeta]
  = call_getId (js "jahia") (js "80") [zeta].
Proof.
  apply (prepString_insensitivity 0 [] (js "J-a.h_i A") (js "8.0")
           (js "jahia") (js "80") [zeta]); reflexivity.
Defined.

(** C8. Determinism of identity derivation: two calls of [getId] with the
    same arguments return the same UUID, also when the second call gets the
    array the first call has sorted in place; a call on a new array with
    the same content returns it as well. *)
Theorem getId_deterministic (n v : jsstring) (l : list ZenCrepesDependency)
    (s : Store) :
  ∃ u s',
    (dependencies ← Array_new l;
     first ← getId n v dependencies;
     second ← getId n v dependencies;
     mret (first, second)) s = (inr (u, u), s')
    ∧ call_getId n v l = inr u
    ∧ call_getId n v (sort_deps l) = inr u.
Proof.
  exists (deriveId n v l). eexists.
  rewrite !call_getId_deriveId. split; [|split; [done|]].
  - rewrite bind_run. unfold Array_new at 1.
    rewrite bind_run.
    rewrite (getId_run _ _ _ _ l) by (by apply list_lookup_middle).
    rewrite bind_run.
    rewrite (getId_run _ _ _ _ (sort_deps l))
      by (simpl; apply list_lookup_insert_eq; rewrite length_app; simpl; lia).
    unfold deriveId. rewrite sort_deps_idemp. reflexivity.
  - unfold deriveId. by rewrite sort_deps_idemp.
Qed.

(** ** Dependencies and version *)

(** C7. Dependency resolution: without a version file the version is the one
    of the command line and the array holds the dependencies of the command
    line unchanged; with a version file the array holds the dependencies of
    the command line in their order, then the dependency named [Jahia] with
    version [{version}-{build}], then the dependencies declared in the file,
    and the version is the module version of the file. *)
Theorem fetchDependencies_resolution (w : World) (flags : Flags) (s : Store)
    (explicit : list ZenCrepesDependency) :
  parse_dependencies w (f_dependencies flags) = Some explicit →
  (f_versionFilepath flags = None →
   ∃ r s', fetchDependencies w flags s = (inr (r, f_version flags), s')
     ∧ arrays s' !! r = Some explicit)
  ∧ (∀ path versionFile m,
       f_versionFilepath flags = Some path →
       readFileSync w path = Some versionFile →
       parse_versions w versionFile = Some m →
       ∃ r s', fetchDependencies w flags s = (inr (r, v_module_version m), s')
         ∧ arrays s' !! r
           = Some (explicit
                   ++ [mkDep (js "Jahia")
                         (v_jahia_version m ++ js "-" ++ v_jahia_build m)]
                   ++ v_dependencies m)).
Proof.
  intros Hd.
  destruct (fetchDependencies_run w flags s) as (s' & _ & Hf).
  unfold resolve in Hf. rewrite Hd in Hf. split.
  - intros Hnone. rewrite Hnone in Hf. destruct Hf as (r & Hf & Hr). eauto.
  - intros path versionFile m Hpath Hfile Hm.
    rewrite Hpath, Hfile, Hm in Hf. destruct Hf as (r & Hf & Hr). eauto.
Qed.

Lemma fetchDependencies_resolution_witness :
  (∃ r s', fetchDependencies sample_world (sample_flags zeta_Alpha None)
             (mkStore [] [])
           = (inr (r, js "1.0.0"), s')
     ∧ arrays s' !! r = Some [zeta; Alpha])
  ∧ (∃ r s', fetchDependencies sample_world
               (sample_flags zeta_Alpha (Some (js "v.json")))
               (mkStore [] [])
             = (inr (r, js "2.1.0"), s')
       ∧ arrays s' !! r
         = Some [zeta; Alpha; mkDep (js "Jahia") (js "8.0.1-abc"); beta]).
Proof.
  split.
  - apply (fetchDependencies_resolution sample_world
             (sample_flags zeta_Alpha None)
             (mkStore [] []) [zeta; Alpha]); reflexivity.
  - apply (proj2 (fetchDependencies_resolution sample_world
                      (sample_flags zeta_Alpha (Some (js "v.json"))) (mkStore [] [])
                      [zeta; Alpha] eq_refl)
             (js "v.json") (utf8_encode (json_versions sample_versions))
             sample_versions);
      reflexivity.
Defined.

(** C1. Version asymmetry: with a version file, the identifier of the
    payload is the one [getId] gives for the name, the version of the
    command line and the merged dependencies, the version of the payload is
    the module version of the file, and the identifier stays the same
    whatever module version the file declares. *)
Theorem version_asymmetry (w : World) (args : Args) (flags : Flags) (s : Store)
    (report : Report) (explicit : list ZenCrepesDependency)
    (path : jsstring) (versionFile : bytes) (m : UtilsVersions) :
  (ingestReport w (f_type flags) (a_file args)).2 = Some report →
  parse_dependencies w (f_dependencies flags) = Some explicit →
  f_versionFilepath flags = Some path →
  readFileSync w path = Some versionFile →
  parse_versions w versionFile = Some m →
  ∃ p s',
    preparePayload w args flags s = (inr p, s')
    ∧ call_getId (f_name flags) (f_version flags)
        (explicit
         ++ [mkDep (js "Jahia") (v_jahia_version m ++ js "-" ++ v_jahia_build m)]
         ++ v_dependencies m)
      = inr (zc_id p)
    ∧ zc_version p = v_module_version m
    ∧ ∀ other : jsstring,
        ∃ p' s'',
          preparePayload (with_module_version w other) args flags s
          = (inr p', s'')
          ∧ zc_id p' = zc_id p ∧ zc_version p' = other.
Proof.
  intros Hi Hd Hpath Hfile Hm.
  destruct (preparePayload_run w args flags s) as (s' & _ & Hp).
  rewrite Hi in Hp. unfold resolve in Hp.
  rewrite Hd, Hpath, Hfile, Hm in Hp. destruct Hp as (r & Hp & _).
  eexists _, s'. split; [exact Hp|]. rewrite call_getId_deriveId.
  split; [done|]. split; [done|]. intros other.
  destruct (preparePayload_run (with_module_version w other) args flags s)
    as (s'' & _ & Hp').
  simpl in Hp'. rewrite Hi in Hp'. unfold resolve in Hp'. simpl in Hp'.
  rewrite Hd, Hpath, Hfile, Hm in Hp'. simpl in Hp'.
  destruct Hp' as (r' & Hp' & _). eauto.
Qed.

Lemma version_asymmetry_witness :
  ∃ p s',
    preparePayload sample_world sample_args
      (sample_flags zeta_Alpha (Some (js "v.json")))
      (mkStore [] []) = (inr p, s')
    ∧ call_getId (js "My-Mod") (js "1.0.0")
        [zeta; Alpha; mkDep (js "Jahia") (js "8.0.1-abc"); beta]
      = inr (zc_id p)
    ∧ zc_version p = js "2.1.0".
Proof.
  destruct (version_asymmetry sample_world sample_args
              (sample_flags zeta_Alpha (Some (js "v.json"))) (mkStore [] [])
              sample_report [zeta; Alpha] (js "v.json") (utf8_encode (json_versions sample_versions))
              sample_versions
              eq_refl eq_refl eq_refl eq_refl eq_refl)
    as (p & s' & Hp & Hid & Hv & _).
  exists p, s'. auto.
Defined.

(** C3, as stated, fails: [getId] sorts the array it is given, not a copy.
    With the dependencies [zeta], [Alpha] given in this order, the array
    holds [Alpha], [zeta] after the call, and so does the [dependencies]
    property of the payload. *)
Lemma dependencies_order_counterexample :
  ((dependencies ← Array_new [zeta; Alpha];
    getId (js "My-Mod") (js "1.0.0") dependencies;;
    Array_read dependencies) (mkStore [] [])).1
  = inr [Alpha; zeta]
  ∧ parse_dependencies sample_world
      (f_dependencies (sample_flags zeta_Alpha None))
    = Some [zeta; Alpha]
  ∧ ((zcPayload ← preparePayload sample_world sample_args
                    (sample_flags zeta_Alpha None);
      Array_read (zc_dependencies zcPayload)) (mkStore [] [])).1
    = inr [Alpha; zeta]
  ∧ [Alpha; zeta] ≠ [zeta; Alpha].
Proof.
  split; [by vm_compute|]. split; [done|]. split; [by vm_compute|].
  discriminate.
Qed.

(** C3, amended. Identity derivation sorts the array of dependencies in
    place, no copy is made: after [getId] the array holds its elements in
    the order of [compareDeps], and the [dependencies] property of the
    payload, which is this array, holds the resolved dependencies in that
    sorted order, a permutation of the order in which they were supplied. *)
Theorem dependencies_sorted_in_place (w : World) (args : Args) (flags : Flags)
    (s : Store) (report : Report) (deps : list ZenCrepesDependency)
    (v : jsstring) :
  (∀ n ver r st l,
     arrays st !! r = Some l →
     arrays (getId n ver r st).2 !! r = Some (sort_deps l))
  ∧ Sorted dep_le (sort_deps deps)
  ∧ sort_deps deps ≡ₚ deps
  ∧ ((ingestReport w (f_type flags) (a_file args)).2 = Some report →
     resolve w flags = inr (deps, v) →
     ∃ p s',
       preparePayload w args flags s = (inr p, s')
       ∧ arrays s' !! zc_dependencies p = Some (sort_deps deps)).
Proof.
  split.
  { intros n ver r st l Hr. rewrite (getId_run _ _ _ _ l Hr). simpl.
    apply list_lookup_insert_eq. by eapply lookup_lt_Some. }
  split; [apply sort_deps_Sorted|].
  split; [apply sort_elements_Permutation|].
  intros Hi Hres.
  destruct (preparePayload_run w args flags s) as (s' & _ & Hp).
  rewrite Hi, Hres in Hp. destruct Hp as (r & Hp & Hr). eauto.
Qed.

Lemma dependencies_sorted_in_place_witness :
  arrays (getId (js "My-Mod") (js "1.0.0") 0 (mkStore [[zeta; Alpha]] [])).2
  !! 0%nat = Some [Alpha; zeta]
  ∧ ∃ p s',
      preparePayload sample_world sample_args
        (sample_flags zeta_Alpha (Some (js "v.json"))) (mkStore [] []) = (inr p, s')
      ∧ arrays s' !! zc_dependencies p
        = Some [Alpha; mkDep (js "Jahia") (js "8.0.1-abc"); beta; zeta].
Proof.
  pose proof (dependencies_sorted_in_place sample_world sample_args
                (sample_flags zeta_Alpha (Some (js "v.json"))) (mkStore [] [])
                sample_report
                [zeta; Alpha; mkDep (js "Jahia") (js "8.0.1-abc"); beta]
                (js "2.1.0")) as (Hsort & _ & _ & H).
  split.
  - rewrite (Hsort (js "My-Mod") (js "1.0.0") 0%nat
               (mkStore [[zeta; Alpha]] []) [zeta; Alpha] eq_refl).
    reflexivity.
  - destruct (H eq_refl eq_refl) as (p & s' & Hp & Hr).
    exists p, s'. split; [exact Hp|]. rewrite Hr. reflexivity.
Defined.

(** ** The payload *)

Lemma round_double_safe (x : Z) :
  (Z.abs x <= 2 ^ 53)%Z → round_double x = x.
Proof.
  intros Hx. unfold round_double.
  destruct (Z.eq_dec (Z.abs x) (2 ^ 53)%Z) as [Heq|Hne].
  { destruct (Z.abs_eq_or_opp x) as [Hx'|Hx']; rewrite Hx' in Heq.
    - by rewrite Heq.
    - assert (x = (- 2 ^ 53)%Z) as -> by lia. done. }
  destruct (Z.eq_dec (Z.abs x) 0%Z) as [H0|H0].
  { assert (x = 0%Z) as -> by lia. done. }
  assert (Z.log2 (Z.abs x) < 53)%Z as Hlog by (apply Z.log2_lt_pow2; lia).
  destruct (Z.leb_spec (Z.log2 (Z.abs x) + 1 - 53) 0)%Z; [done|lia].
Qed.

Lemma double_sub_safe (a b : Z) :
  (Z.abs (a - b) <= 2 ^ 53)%Z → double_sub a b = Finite (a - b).
Proof.
  intros Hx. unfold double_sub. rewrite (round_double_safe _ Hx).
  assert (2 ^ 53 < 2 ^ 1024)%Z by (by apply Z.pow_lt_mono_r).
  destruct (Z.leb_spec (2 ^ 1024)%Z (Z.abs (a - b))); [lia|done].
Qed.

(** The difference of line 115 beyond the integers that doubles tell
    apart: [9007199254740994 - 1] is [9007199254740992]. *)
Example double_sub_rounds :
  double_sub (2 ^ 53 + 2) 1 = Finite (2 ^ 53)
  ∧ double_sub (2 ^ 1023) (- 2 ^ 1023) = Infinite false.
Proof. by vm_compute. Qed.

(** C6. State derivation: for every report the state of the payload is
    [PASS] exactly when the report counts no failure and [FAIL] otherwise,
    and [runSuccess] is the number of tests minus the number of failures
    as line 115 computes it, in double arithmetic: the exact difference
    whenever the counts and their difference are safe integers (at most
    [2 ^ 53] in absolute value), also a negative one, since nothing
    requires the failures to be at most the tests. *)
Theorem state_derivation (w : World) (args : Args) (flags : Flags) (s : Store)
    (report : Report) (deps : list ZenCrepesDependency) (v : jsstring) :
  (ingestReport w (f_type flags) (a_file args)).2 = Some report →
  resolve w flags = inr (deps, v) →
  ∃ p s',
    preparePayload w args flags s = (inr p, s')
    ∧ (zc_state p = js "PASS" ↔ r_failures report = 0%Z)
    ∧ (zc_state p = js "FAIL" ↔ r_failures report ≠ 0%Z)
    ∧ zc_runSuccess p = double_sub (r_tests report) (r_failures report)
    ∧ ((Z.abs (r_tests report) <= 2 ^ 53)%Z →
       (Z.abs (r_failures report) <= 2 ^ 53)%Z →
       (Z.abs (r_tests report - r_failures report) <= 2 ^ 53)%Z →
       zc_runSuccess p = Finite (r_tests report - r_failures report))
    ∧ zc_runTotal p = r_tests report
    ∧ zc_runFailure p = r_failures report.
Proof.
  intros Hi Hres.
  destruct (preparePayload_run w args flags s) as (s' & _ & Hp).
  rewrite Hi, Hres in Hp. destruct Hp as (r & Hp & _).
  eexists _, s'. split; [exact Hp|]. cbn [zc_state zc_runSuccess zc_runTotal
                                          zc_runFailure payload_of].
  destruct (Z.eqb_spec (r_failures report) 0) as [Hz|Hz].
  - split; [done|]. split; [split; [by vm_compute|done]|].
    split; [done|]. split; [|done]. intros _ _. apply double_sub_safe.
  - split; [split; [by vm_compute|done]|]. split; [done|].
    split; [done|]. split; [|done]. intros _ _. apply double_sub_safe.
Qed.

Lemma state_derivation_witness :
  ∃ p s',
    preparePayload
      (sample_world_with (Some (mkReport 2 5 (mkDouble (js "0.5")))))
      sample_args (sample_flags (js "[]") None) (mkStore [] []) = (inr p, s')
    ∧ zc_state p = js "FAIL"
    ∧ zc_runSuccess p = Finite (-3).
Proof.
  destruct (state_derivation
              (sample_world_with (Some (mkReport 2 5 (mkDouble (js "0.5")))))
              sample_args (sample_flags (js "[]") None) (mkStore [] [])
              (mkReport 2 5 (mkDouble (js "0.5"))) [] (js "1.0.0")
              eq_refl eq_refl)
    as (p & s' & Hp & _ & Hfail & _ & Hsucc & _).
  exists p, s'. split; [exact Hp|]. split.
  - apply Hfail. discriminate.
  - apply Hsucc; by vm_compute.
Defined.

(** ** Signature, log line and request *)

Lemma posts_logs (lines : list jsstring) : posts (List.map Log lines) = [].
Proof. induction lines as [|line lines IH]; simpl; done. Qed.

Lemma posts_logs_post (lines : list jsstring) (text target : jsstring)
    (headers : list (jsstring * jsstring)) (body : bytes) :
  posts (List.map Log lines ++ [Log text; Post target headers body])
  = [Post target headers body].
Proof.
  unfold posts. rewrite List.filter_app. fold (posts (List.map Log lines)).
  by rewrite posts_logs.
Qed.

Lemma elem_of_logs_post (lines : list jsstring) (text target : jsstring)
    (headers : list (jsstring * jsstring)) (body : bytes) (ev : Effect) :
  ev ∈ List.map Log lines ++ [Log text; Post target headers body] →
  (∃ line, ev = Log line) ∨ ev = Post target headers body.
Proof.
  rewrite elem_of_app, !elem_of_cons, elem_of_nil.
  intros [Hin|[->|[->|[]]]]; eauto.
  apply list_elem_of_In, in_map_iff in Hin as (line & <- & _). eauto.
Qed.

(** C4. Signature over the wire bytes: every request [run] sends goes to the
    payload URL and carries, as [x-hub-signature], the string [sha1=]
    followed by the hexadecimal HMAC-SHA1, keyed by the secret, of the very
    bytes of its body; and when the report and the dependencies are
    obtained, [run] does send a request, whose body is the UTF-8 JSON text
    of the payload. *)
Theorem signature_over_wire_bytes (w : World) (args : Args) (flags : Flags)
    (s : Store) :
  ∃ new,
    effects (run w args flags s).2 = effects s ++ new
    ∧ (∀ target headers body,
         Post target headers body ∈ new →
         target = a_payloadurl args
         ∧ headers
           = [(js "x-hub-signature",
               js "sha1="
               ++ hex (hmac_sha1 (utf8_encode (a_secret args)) body));
              (js "Content-Type", js "application/json")])
    ∧ (∀ report deps v,
         (ingestReport w (f_type flags) (a_file args)).2 = Some report →
         resolve w flags = inr (deps, v) →
         ∃ p body,
           (preparePayload w args flags s).1 = inr p
           ∧ body = utf8_encode (json_node p (sort_deps deps))
           ∧ Post (a_payloadurl args) (headers_for (a_secret args) body) body
             ∈ new).
Proof.
  destruct (run_spec w args flags s) as (s' & Hrun).
  destruct (ingestReport w (f_type flags) (a_file args)) as [lines [report|]];
    cbn [fst snd] in *.
  2:{ destruct Hrun as [Hr He]. rewrite Hr. cbn [snd].
      eexists. split; [exact He|]. split; [|done].
      intros ??? Hin. apply list_elem_of_In, in_map_iff in Hin as (? & ? & _).
      done. }
  destruct (resolve w flags) as [e|[deps v]].
  { destruct Hrun as [Hr He]. rewrite Hr. cbn [snd].
    eexists. split; [exact He|]. split; [|done].
    intros ??? Hin. apply list_elem_of_In, in_map_iff in Hin as (? & ? & _).
    done. }
  destruct Hrun as (r & Hp & Hr & He).
  cbv zeta in Hp, Hr, He. rewrite Hr. cbn [snd].
  eexists. split; [exact He|]. split.
  - intros target headers body Hin.
    apply elem_of_logs_post in Hin as [[line ?]|Heq]; [done|].
    by injection Heq as -> -> ->.
  - intros ? ? ? [= <-] [= <- <-].
    eexists _, _. split; [exact Hp|]. split; [reflexivity|].
    rewrite elem_of_app, !elem_of_cons. right; right; left. reflexivity.
Qed.

Lemma signature_over_wire_bytes_witness :
  (∃ p body,
     (preparePayload sample_world sample_args
        (sample_flags zeta_Alpha (Some (js "v.json"))) (mkStore [] [])).1 = inr p
     ∧ body
       = utf8_encode
           (json_node p
              (sort_deps
                 [zeta; Alpha; mkDep (js "Jahia") (js "8.0.1-abc"); beta]))
     ∧ Post (js "http://zencrepes/hook") (headers_for (js "abc") body) body
       ∈ effects (run sample_world sample_args
                    (sample_flags zeta_Alpha (Some (js "v.json"))) (mkStore [] [])).2)
  ∧ ∃ body,
      Post (js "http://zencrepes/hook")
        [(js "x-hub-signature",
          js "sha1=66dca03203d0ff1596ba46d54ad30f45e927aa17");
         (js "Content-Type", js "application/json")] body
      ∈ effects (run sample_world sample_args
                   (sample_flags zeta_Alpha (Some (js "v.json"))) (mkStore [] [])).2
      ∧ js "sha1=66dca03203d0ff1596ba46d54ad30f45e927aa17"
        = js "sha1=" ++ hex (hmac_sha1 (utf8_encode (js "abc")) body).
Proof.
  pose proof (signature_over_wire_bytes sample_world sample_args
                (sample_flags zeta_Alpha (Some (js "v.json"))) (mkStore [] []))
    as (new & Heq & Hall & Hex).
  split.
  { destruct (Hex sample_report
                [zeta; Alpha; mkDep (js "Jahia") (js "8.0.1-abc"); beta]
                (js "2.1.0") eq_refl eq_refl) as (p & body & Hp & Hb & Hin).
    exists p, body. rewrite Heq. auto. }
  assert (∃ text body,
            effects (run sample_world sample_args
                       (sample_flags zeta_Alpha (Some (js "v.json"))) (mkStore [] [])).2
            = [Log (js "reading"); Log text;
               Post (js "http://zencrepes/hook")
                 [(js "x-hub-signature",
                   js "sha1=66dca03203d0ff1596ba46d54ad30f45e927aa17");
                  (js "Content-Type", js "application/json")] body])
    as (text & body & Hrun).
  { eexists _, _. vm_compute. reflexivity. }
  rewrite Hrun in Heq |- *. cbn [effects app] in Heq. subst new.
  assert (Post (js "http://zencrepes/hook")
            [(js "x-hub-signature",
              js "sha1=66dca03203d0ff1596ba46d54ad30f45e927aa17");
             (js "Content-Type", js "application/json")] body
          ∈ [Log (js "reading"); Log text;
             Post (js "http://zencrepes/hook")
               [(js "x-hub-signature",
                 js "sha1=66dca03203d0ff1596ba46d54ad30f45e927aa17");
                (js "Content-Type", js "application/json")] body]) as Hin.
  { rewrite !elem_of_cons. by right; right; left. }
  exists body. split; [exact Hin|].
  destruct (Hall _ _ _ Hin) as [_ Hh].
  apply (f_equal (fun l : list (list N * list N) =>
                    match l with (_, value) :: _ => value | [] => [] end))
    in Hh.
  exact Hh.
Defined.

(** C10. The text written to standard output is the text that was signed:
    when the report and the dependencies are obtained, [run] logs the JSON
    text of the payload right before the request, the [x-hub-signature]
    header of the request is the HMAC-SHA1 of the UTF-8 bytes of that very
    text, and [JSON.stringify] yields that text both when the signature is
    computed and when the line is logged, the store being unchanged in
    between. *)
Theorem logged_text_is_signed_text (w : World) (args : Args) (flags : Flags)
    (s : Store) (report : Report) (deps : list ZenCrepesDependency)
    (v : jsstring) :
  (ingestReport w (f_type flags) (a_file args)).2 = Some report →
  resolve w flags = inr (deps, v) →
  ∃ p s1 text result s',
    preparePayload w args flags s = (inr p, s1)
    ∧ JSON_stringify p s1 = (inr text, s1)
    ∧ signature (a_secret args) p s1
      = (inr (js "sha1="
              ++ hex (hmac_sha1 (utf8_encode (a_secret args))
                        (utf8_encode text))), s1)
    ∧ run w args flags s = (result, s')
    ∧ effects s'
      = effects s
        ++ List.map Log (ingestReport w (f_type flags) (a_file args)).1
        ++ [Log text;
            Post (a_payloadurl args)
              [(js "x-hub-signature",
                js "sha1="
                ++ hex (hmac_sha1 (utf8_encode (a_secret args))
                          (utf8_encode text)));
               (js "Content-Type", js "application/json")]
              (utf8_encode text)].
Proof.
  intros Hi Hres.
  destruct (preparePayload_run w args flags s) as (s1 & He & Hp).
  rewrite Hi, Hres in Hp. destruct Hp as (r & Hp & Hr).
  assert (JSON_stringify
            (payload_of w flags report
               (deriveId (f_name flags) (f_version flags) deps) r v) s1
          = (inr (json_node
                    (payload_of w flags report
                       (deriveId (f_name flags) (f_version flags) deps) r v)
                    (sort_deps deps)), s1)) as Hjson.
  { unfold JSON_stringify, Array_read. rewrite bind_run.
    cbn [zc_dependencies payload_of]. by rewrite Hr. }
  eexists _, s1, _, _, _. split; [exact Hp|]. split; [exact Hjson|].
  split.
  { unfold signature. rewrite bind_run, Hjson. mstep.
    by rewrite utf8_encode_ascii, utf8_decode_ascii by apply signature_ascii. }
  unfold run. rewrite bind_run, Hp.
  rewrite (deliver_run _ _ _ _ (sort_deps deps)) by done.
  cbv zeta. split; [reflexivity|].
  cbn [effects]. by rewrite He, <- app_assoc.
Qed.

Lemma logged_text_is_signed_text_witness :
  ∃ text,
    effects (run sample_world sample_args (sample_flags zeta_Alpha None)
               (mkStore [] [])).2
    = [Log (js "reading"); Log text;
       Post (js "http://zencrepes/hook")
         [(js "x-hub-signature",
           js "sha1="
           ++ hex (hmac_sha1 (utf8_encode (js "abc")) (utf8_encode text)));
          (js "Content-Type", js "application/json")]
         (utf8_encode text)].
Proof.
  pose proof (logged_text_is_signed_text sample_world sample_args
                (sample_flags zeta_Alpha None) (mkStore [] []) sample_report
                [zeta; Alpha] (js "1.0.0") eq_refl eq_refl)
    as (p & s1 & text & result & s' & _ & _ & _ & Hrun & He).
  exists text. rewrite Hrun. exact He.
Defined.

(** ** Errors and requests *)

(** C9, as stated, fails. With the dependencies written as in the help text
    of the option, which is not JSON, the report is read, no version file
    is involved, and yet the run stops before the payload is built, without
    a request. With [-d '[{"name":"a"}]'], which is JSON, the run stops in
    [getId] with a [TypeError], again after the report is read, without a
    version file and without a request. Neither error is one of the report
    or of the version file. *)
Lemma no_partial_success_counterexample :
  (Untyped.ingestReport sample_engine
     (f_type (sample_flags help_text_example None)) (a_file sample_args)).2
  = Some sample_report
  ∧ f_versionFilepath (sample_flags help_text_example None) = None
  ∧ Untyped.run sample_engine sample_args (sample_flags help_text_example None)
      (Untyped.mkStore [] [])
    = (inl DependenciesError, Untyped.mkStore [] [Log (js "reading")])
  ∧ Untyped.JSON_parse sample_engine (Untyped.json_text name_only)
    = Some name_only
  ∧ Untyped.run sample_engine sample_args
      (sample_flags (Untyped.json_text name_only) None) (Untyped.mkStore [] [])
    = (inl TypeError,
       Untyped.mkStore
         [[Untyped.JObject [(js "name", Untyped.JString (js "a"))]]]
         [Log (js "reading")])
  ∧ posts [Log (js "reading")] = [].
Proof. repeat split. Qed.

(** C9, amended. No partial success: every run either obtains the report,
    decodes the dependencies and the version file into values of the
    expected shape, builds and signs the payload and attempts exactly one
    request, as its last effect, or is stopped before any request: by an
    error of the report, by a dependencies option that is not JSON, by a
    version file that cannot be read or is not JSON, or by a [TypeError]
    on decoded JSON of another shape than the code expects (dependencies
    that are no array, a version file on which line 100, 101 or 102 throws,
    or a dependency whose name or version is no string). No run attempts
    more than one request. *)
Theorem no_partial_success (w : Untyped.World) (args : Args) (flags : Flags)
    (s : Untyped.Store) :
  ∃ result s' new,
    Untyped.run w args flags s = (result, s')
    ∧ Untyped.effects s' = Untyped.effects s ++ new
    ∧ (length (posts new) ≤ 1)%nat
    ∧ ((∃ report deps v p post,
          (Untyped.ingestReport w (f_type flags) (a_file args)).2 = Some report
          ∧ Untyped.resolve w flags = inr (deps, v)
          ∧ Untyped.well_typed deps = true
          ∧ (Untyped.preparePayload w args flags s).1 = inr p
          ∧ post
            = (let body :=
                 utf8_encode (Untyped.json_node p (Untyped.sort_deps deps)) in
               Post (a_payloadurl args) (headers_for (a_secret args) body) body)
          ∧ posts new = [post]
          ∧ last new = Some post
          ∧ (result = inr tt ∨ result = inl DeliveryError))
       ∨ (posts new = []
          ∧ ∃ e, result = inl e
              ∧ ((e = ReportParseError
                  ∧ (Untyped.ingestReport w (f_type flags) (a_file args)).2
                    = None)
                 ∨ (e = DependenciesError
                    ∧ Untyped.JSON_parse w (f_dependencies flags) = None)
                 ∨ (e = ManifestReadError
                    ∧ ∃ path, f_versionFilepath flags = Some path
                        ∧ Untyped.readFileSync w path = None)
                 ∨ (e = ManifestParseError
                    ∧ ∃ path versionFile,
                        f_versionFilepath flags = Some path
                        ∧ Untyped.readFileSync w path = Some versionFile
                        ∧ Untyped.JSON_parse w (utf8_decode versionFile) = None)
                 ∨ (e = TypeError
                    ∧ ∃ parsed,
                        Untyped.JSON_parse w (f_dependencies flags) = Some parsed
                        ∧ ((∀ l, parsed ≠ Untyped.JArray l)
                           ∨ (∃ path versionFile version,
                                f_versionFilepath flags = Some path
                                ∧ Untyped.readFileSync w path = Some versionFile
                                ∧ Untyped.JSON_parse w (utf8_decode versionFile)
                                  = Some version
                                ∧ (Untyped.jahia_version version = inl TypeError
                                   ∨ Untyped.declared_dependencies version
                                     = inl TypeError
                                   ∨ Untyped.module_version version
                                     = inl TypeError))
                           ∨ (∃ deps v,
                                Untyped.resolve w flags = inr (deps, v)
                                ∧ Untyped.well_typed deps = false)))))).
Proof.
  destruct (untyped_run_spec w args flags s) as (s' & Hrun).
  destruct (Untyped.ingestReport w (f_type flags) (a_file args))
    as [lines [report|]]; cbn [fst snd] in *.
  2:{ destruct Hrun as [Hr He]. eexists _, s', _.
      split; [exact Hr|]. split; [exact He|]. rewrite posts_logs.
      split; [simpl; lia|]. right. split; [done|]. eauto 6. }
  destruct (Untyped.resolve w flags) as [e|[deps v]] eqn:Hres.
  { destruct Hrun as [Hr He]. eexists _, s', _.
    split; [exact Hr|]. split; [exact He|]. rewrite posts_logs.
    split; [simpl; lia|]. right. split; [done|]. exists e. split; [done|].
    right.
    destruct (untyped_resolve_error w flags e Hres)
      as [H|[H|[H|(-> & parsed & Hp & H)]]]; auto.
    do 3 right. split; [done|]. exists parsed. split; [done|].
    destruct H; auto. }
  destruct (Untyped.well_typed deps) eqn:Hwt.
  2:{ destruct Hrun as [Hr He]. eexists _, s', _.
      split; [exact Hr|]. split; [exact He|]. rewrite posts_logs.
      split; [simpl; lia|]. right. split; [done|].
      exists TypeError. split; [done|]. do 4 right. split; [done|].
      unfold Untyped.resolve in Hres.
      destruct (Untyped.JSON_parse w (f_dependencies flags)) as [parsed|];
        [|done].
      exists parsed. split; [done|]. right; right. eauto. }
  destruct Hrun as (r & Hp & Hr & He). cbv zeta in Hr, He.
  eexists _, s', _. split; [exact Hr|]. split; [exact He|].
  rewrite posts_logs_post. split; [simpl; lia|]. left.
  eexists report, deps, v, _, _. split; [done|]. split; [done|].
  split; [done|]. split; [exact Hp|]. split; [reflexivity|].
  split; [done|]. split.
  - by rewrite last_app.
  - destruct (Untyped.request _ _ _ _); auto.
Qed.

(** * Further properties of [prepString], [getId] and [run] *)

(** ** Normalization *)

Lemma prepString_app (a b : jsstring) :
  prepString (a ++ b) = prepString a ++ prepString b.
Proof.
  unfold prepString, toLowerCase, replace_non_alnum.
  by rewrite List.filter_app, List.map_app.
Qed.

Lemma prepString_fixed (s : jsstring) :
  Forall (fun c => is_digit c || is_lower c = true) s → prepString s = s.
Proof.
  unfold prepString, toLowerCase, replace_non_alnum.
  induction 1 as [|c s Hc _ IH]; simpl; [done|].
  unfold non_alnum at 1. rewrite Hc. simpl. rewrite IH. f_equal.
  unfold lower_unit, is_digit, is_lower, is_upper in *.
  destruct (N.leb_spec 65 c), (N.leb_spec c 90); simpl; try done.
  destruct (N.leb_spec 48 c), (N.leb_spec c 57), (N.leb_spec 97 c),
    (N.leb_spec c 122); simpl in Hc; try done; lia.
Qed.

Lemma prepString_idemp (s : jsstring) : prepString (prepString s) = prepString s.
Proof. apply prepString_fixed, prepString_units. Qed.

Lemma idStr_of_flatten (n v : jsstring) (l : list ZenCrepesDependency) :
  idStr_of n v l = prepString (n ++ v ++ flatten_deps l).
Proof.
  unfold idStr_of. rewrite app_assoc, (prepString_app (n ++ v)), prepString_app.
  generalize (prepString n ++ prepString v) as acc.
  induction l as [|d l IH]; intros acc; simpl.
  { by rewrite app_nil_r. }
  rewrite IH, !prepString_app. by rewrite <- !app_assoc.
Qed.

Lemma call_getId_idStr (n1 v1 n2 v2 : jsstring)
    (l1 l2 : list ZenCrepesDependency) :
  idStr_of n1 v1 (sort_deps l1) = idStr_of n2 v2 (sort_deps l2) →
  call_getId n1 v1 l1 = call_getId n2 v2 l2.
Proof.
  intros Heq. rewrite !call_getId_deriveId. unfold deriveId. by rewrite Heq.
Qed.

(** X1. [prepString] is idempotent and distributes over concatenation, so a
    name and a version that were normalized beforehand give the same
    identifier as the raw ones. *)
Theorem prepString_prenormalized (s a b n v : jsstring)
    (l : list ZenCrepesDependency) :
  prepString (prepString s) = prepString s
  ∧ prepString (a ++ b) = prepString a ++ prepString b
  ∧ call_getId (prepString n) (prepString v) l = call_getId n v l.
Proof.
  split; [apply prepString_idemp|]. split; [apply prepString_app|].
  apply call_getId_idStr. unfold idStr_of. by rewrite !prepString_idemp.
Qed.

(** X2. The identifier depends only on the concatenation of the normalized
    strings: moving characters across the boundary between name and
    version does not change it, and the dependencies count as if their raw
    names and versions, in sorted order, were appended to the version. *)
Theorem getId_concatenation (a b c n v : jsstring)
    (l : list ZenCrepesDependency) :
  call_getId (a ++ b) c l = call_getId a (b ++ c) l
  ∧ call_getId n v l = call_getId n (v ++ flatten_deps (sort_deps l)) [].
Proof.
  split; apply call_getId_idStr; rewrite !idStr_of_flatten.
  - f_equal. by rewrite <- !app_assoc.
  - f_equal. cbn [sort_elements flatten_deps flat_map].
    by rewrite app_nil_r, <- ?app_assoc.
Qed.

(** ** The comparison function and the sort *)



(** X4. [getId] touches nothing but the array it is given: it writes no
    log line and sends no request, the other arrays of the store keep
    their content, and its own array keeps its elements, each as many
    times as before. *)
Theorem getId_frame (n v : jsstring) (r : nat) (s : Store)
    (l : list ZenCrepesDependency) :
  arrays s !! r = Some l →
  ∃ u s' l',
    getId n v r s = (inr u, s')
    ∧ effects s' = effects s
    ∧ length (arrays s') = length (arrays s)
    ∧ (∀ r', r' ≠ r → arrays s' !! r' = arrays s !! r')
    ∧ arrays s' !! r = Some l'
    ∧ l' ≡ₚ l
    ∧ length l' = length l.
Proof.
  intros Hr. rewrite (getId_run n v r s l Hr).
  eexists _, _, (sort_deps l). split; [reflexivity|]. cbn [arrays effects].
  split; [done|]. split; [apply length_insert|].
  split; [by intros r' Hne; apply list_lookup_insert_ne|].
  split; [apply list_lookup_insert_eq; by eapply lookup_lt_Some|].
  split; [apply sort_elements_Permutation|].
  apply Permutation_length, sort_elements_Permutation.
Qed.

Lemma getId_frame_witness :
  ∃ u s' l',
    getId (js "My-Mod") (js "1.0.0") 1
      (mkStore [[beta; Alpha]; [zeta; Alpha; zeta]] [Log (js "reading")])
    = (inr u, s')
    ∧ effects s' = [Log (js "reading")]
    ∧ arrays s' !! 0%nat = Some [beta; Alpha]
    ∧ arrays s' !! 1%nat = Some l'
    ∧ l' ≡ₚ [zeta; Alpha; zeta].
Proof.
  destruct (getId_frame (js "My-Mod") (js "1.0.0") 1
              (mkStore [[beta; Alpha]; [zeta; Alpha; zeta]]
                 [Log (js "reading")])
              [zeta; Alpha; zeta] eq_refl)
    as (u & s' & l' & Hrun & He & _ & Hother & Hr & Hp & _).
  exists u, s', l'. split; [exact Hrun|]. split; [exact He|].
  split; [|split; [exact Hr|exact Hp]].
  rewrite (Hother 0%nat) by discriminate. reflexivity.
Defined.

(** ** The shape of the identifier and of the signature *)

Lemma sha1_length (msg : bytes) : length (sha1 msg) = 20%nat.
Proof.
  unfold sha1. by destruct (sha1_blocks _ _ _) as [[[[h0 h1] h2] h3] h4].
Qed.

Lemma hex_length (bs : bytes) : length (hex bs) = (2 * length bs)%nat.
Proof.
  unfold hex. induction bs as [|b bs IH]; cbn [flat_map length app]; [done|].
  rewrite IH. lia.
Qed.

Lemma hex_app (a b : bytes) : hex (a ++ b) = hex a ++ hex b.
Proof. unfold hex. apply flat_map_app. Qed.

Lemma below_16 (n : N) :
  n < 16 →
  n = 0 ∨ n = 1 ∨ n = 2 ∨ n = 3 ∨ n = 4 ∨ n = 5 ∨ n = 6 ∨ n = 7 ∨ n = 8
  ∨ n = 9 ∨ n = 10 ∨ n = 11 ∨ n = 12 ∨ n = 13 ∨ n = 14 ∨ n = 15.
Proof. lia. Qed.

Lemma hex_digit_lower (n : N) : n < 16 → is_hex_lower (hex_digit n) = true.
Proof.
  intros Hn. apply below_16 in Hn.
  repeat (destruct Hn as [->|Hn]); try subst n; reflexivity.
Qed.

Lemma hex_lower (bs : bytes) :
  Forall (fun b => b < 256) bs → Forall (fun c => is_hex_lower c = true) (hex bs).
Proof.
  unfold hex. induction 1 as [|b bs Hb _ IH]; cbn [flat_map app];
    [constructor|].
  repeat constructor; [apply hex_digit_lower..|done].
  - apply N.Div0.div_lt_upper_bound. lia.
  - by apply N.mod_lt.
Qed.

Lemma hex_value_digit (n : N) : n < 16 → hex_value (hex_digit n) = Some n.
Proof.
  intros Hn. apply below_16 in Hn.
  repeat (destruct Hn as [->|Hn]); try subst n; reflexivity.
Qed.

Lemma hex_pairs_hex (bs : bytes) :
  Forall (fun b => b < 256) bs → hex_pairs (hex bs) = Some bs.
Proof.
  unfold hex. induction 1 as [|b bs Hb _ IH]; cbn [flat_map app hex_pairs];
    [done|].
  assert (b / 16 < 16) as Hhi by (apply N.Div0.div_lt_upper_bound; lia).
  assert (b mod 16 < 16) as Hlo by (by apply N.mod_lt).
  rewrite (hex_value_digit _ Hhi), (hex_value_digit _ Hlo), IH.
  cbn. do 2 f_equal. rewrite N.mul_comm. symmetry. apply N.div_mod. lia.
Qed.

Lemma filter_dash_hex (bs : bytes) :
  List.filter (fun c => negb (c =? 45)) (hex bs) = hex bs.
Proof.
  apply forallb_filter_id, forallb_forall. intros c Hin.
  unfold hex in Hin. apply in_flat_map in Hin as (b & _ & Hc).
  assert (∀ n, 48 <= hex_digit n) as Hd.
  { intros n. unfold hex_digit. destruct (n <? 10); lia. }
  destruct (N.eqb_spec c 45) as [->|]; [|done].
  destruct Hc as [Hc|[Hc|[]]]; pose proof (Hd (b / 16)); pose proof (Hd (b mod 16));
    lia.
Qed.

Lemma version_byte (x : N) :
  N.lor (N.land x 0x0f) 0x50 / 16 = 5 ∧ N.lor (N.land x 0x0f) 0x50 < 256.
Proof.
  assert (N.lor (N.land x 0x0f) 0x50 / 16 = 5) as Hdiv.
  { change 16 with (2 ^ 4). rewrite <- N.shiftr_div_pow2, N.shiftr_lor.
    rewrite N.shiftr_land. change (N.shiftr 0x0f 4) with 0.
    by rewrite N.land_0_r. }
  split; [done|].
  pose proof (N.div_mod (N.lor (N.land x 0x0f) 0x50) 16).
  pose proof (N.mod_lt (N.lor (N.land x 0x0f) 0x50) 16). lia.
Qed.

Lemma variant_byte (y : N) :
  (8 <= N.lor (N.land y 0x3f) 0x80 / 16 <= 11)
  ∧ N.lor (N.land y 0x3f) 0x80 < 256.
Proof.
  assert (8 <= N.lor (N.land y 0x3f) 0x80 / 16 <= 11) as Hdiv.
  { change 16 with (2 ^ 4). rewrite <- N.shiftr_div_pow2, N.shiftr_lor.
    rewrite N.shiftr_land. change (N.shiftr 0x3f 4) with (N.ones 2).
    change (N.shiftr 0x80 4) with 8. rewrite N.land_ones.
    change (2 ^ 2) with 4. generalize (N.shiftr y 4). intros z.
    assert (z mod 4 < 4) as Hlt by (by apply N.mod_lt).
    assert (z mod 4 = 0 ∨ z mod 4 = 1 ∨ z mod 4 = 2 ∨ z mod 4 = 3)
      as [-> | [-> | [-> | ->]]] by (revert Hlt; generalize (z mod 4); lia);
      by vm_compute. }
  split; [done|].
  pose proof (N.div_mod (N.lor (N.land y 0x3f) 0x80) 16).
  pose proof (N.mod_lt (N.lor (N.land y 0x3f) 0x80) 16). lia.
Qed.

Lemma uuid_stringify_shape (h : bytes) (x y : N) :
  length h = 20%nat →
  let b := firstn 16 (<[8%nat := y]> (<[6%nat := x]> h)) in
  let u := uuid_stringify b in
  length b = 16%nat
  ∧ b !! 6%nat = Some x ∧ b !! 8%nat = Some y
  ∧ length u = 36%nat
  ∧ u !! 8%nat = Some 45 ∧ u !! 13%nat = Some 45
  ∧ u !! 18%nat = Some 45 ∧ u !! 23%nat = Some 45
  ∧ u !! 14%nat = Some (hex_digit (x / 16))
  ∧ u !! 19%nat = Some (hex_digit (y / 16))
  ∧ List.filter (fun c => negb (c =? 45)) u = hex b.
Proof.
  intros Hlen.
  do 20 (destruct h as [|? h]; [discriminate Hlen|]).
  destruct h; [|discriminate Hlen].
  cbv zeta. repeat split; try reflexivity.
  unfold uuid_stringify. rewrite !List.filter_app, !filter_dash_hex.
  cbn [List.filter N.eqb Pos.eqb negb app].
  by rewrite <- !hex_app.
Qed.

Lemma deriveId_stringify (n v : jsstring) (l : list ZenCrepesDependency) :
  ∃ h x y,
    length h = 20%nat
    ∧ Forall (fun b => b < 256) h
    ∧ x = N.lor (N.land (nth 6 h 0) 0x0f) 0x50
    ∧ y = N.lor (N.land (nth 8 (<[6%nat := x]> h) 0) 0x3f) 0x80
    ∧ deriveId n v l
      = uuid_stringify (firstn 16 (<[8%nat := y]> (<[6%nat := x]> h))).
Proof.
  destruct (uuid_parse UUID_NAMESPACE) as [ns|] eqn:Hns;
    [|vm_compute in Hns; discriminate].
  exists (sha1 (ns ++ idStr_of n v (sort_deps l))). eexists _, _.
  split; [apply sha1_length|]. split; [apply sha1_bound|].
  split; [reflexivity|]. split; [reflexivity|].
  unfold deriveId, uuidv5.
  rewrite (stringToBytes_ascii _ (idStr_of_ascii n v (sort_deps l))), Hns.
  reflexivity.
Qed.

Lemma hex_byte_valid (b : N) :
  b < 256 →
  uuid_char 0 (hex_digit (b / 16)) = true
  ∧ uuid_char 0 (hex_digit (b mod 16)) = true.
Proof.
  intros Hb. unfold uuid_char.
  rewrite !hex_value_digit; [done|by apply N.mod_lt|].
  apply N.Div0.div_lt_upper_bound. lia.
Qed.

Lemma uuid_stringify_valid (b : bytes) (x y : N) :
  length b = 16%nat →
  Forall (fun c => c < 256) b →
  b !! 6%nat = Some x → b !! 8%nat = Some y →
  x / 16 = 5 → 8 <= y / 16 <= 11 →
  uuid_validate (uuid_stringify b) = true.
Proof.
  intros Hlen Hb H6 H8 Hx Hy.
  do 16 (destruct b as [|? b]; [discriminate Hlen|]).
  destruct b; [|discriminate Hlen].
  injection H6 as ->. injection H8 as ->.
  repeat match goal with
         | H : Forall _ (_ :: _) |- _ =>
             apply Forall_cons in H as [?%hex_byte_valid H]
         end.
  unfold uuid_validate. apply orb_true_iff. right.
  apply andb_true_iff. split; [reflexivity|].
  cbv beta iota zeta delta
    [uuid_stringify hex flat_map firstn skipn app combine seq forallb fst snd].
  change (uuid_char 14) with (fun c => (49 <=? c) && (c <=? 53)).
  change (uuid_char 19)
    with (fun c => (c =? 56) || (c =? 57) || (c =? 97) || (c =? 98)
                   || (c =? 65) || (c =? 66)).
  cbv beta. rewrite Hx.
  repeat match goal with
         | H : _ ∧ _ |- _ => destruct H as [? ?]
         end.
  repeat match goal with
         | H : uuid_char 0 ?c = true |- _ =>
             change (uuid_char 0 c = true)
               with (match hex_value c with Some _ => true | None => false end
                     = true) in H
         end.
  unfold uuid_char.
  repeat match goal with
         | H : match hex_value ?c with Some _ => true | None => false end = true
           |- _ => rewrite H; clear H
         end.
  assert (y / 16 = 8 ∨ y / 16 = 9 ∨ y / 16 = 10 ∨ y / 16 = 11)
    as [-> | [-> | [-> | ->]]] by lia; reflexivity.
Qed.

(** X5. [getId] never throws, whatever code units the name, the version
    and the dependencies hold, and its result is a well-formed UUID of
    version 5: 36 characters that [validate] and [parse] of the [uuid]
    package accept, the version digit being [5]. *)
Theorem getId_valid_uuid (n v : jsstring) (l : list ZenCrepesDependency) :
  ∃ u,
    call_getId n v l = inr u
    ∧ length u = 36%nat
    ∧ u !! 14%nat = Some 53
    ∧ uuid_validate u = true
    ∧ is_Some (uuid_parse u).
Proof.
  exists (deriveId n v l). split; [apply call_getId_deriveId|].
  destruct (deriveId_stringify n v l) as (h & x & y & Hlen & Hh & Hx & Hy & ->).
  destruct (uuid_stringify_shape h x y Hlen)
    as (Hlb & Hb6 & Hb8 & Hu & _ & _ & _ & _ & H14 & _ & Hf).
  cbv zeta in Hlb, Hb6, Hb8, Hu, H14, Hf.
  assert (x / 16 = 5 ∧ x < 256) as [Hx5 Hx256] by (subst x; apply version_byte).
  assert (8 <= y / 16 <= 11 ∧ y < 256) as [Hy8 Hy256]
    by (subst y; apply variant_byte).
  clear Hx Hy.
  assert (Forall (fun b => b < 256)
            (firstn 16 (<[8%nat := y]> (<[6%nat := x]> h)))) as Hb.
  { apply Forall_take. by repeat apply Forall_insert. }
  pose proof (uuid_stringify_valid _ x y Hlb Hb Hb6 Hb8 Hx5 Hy8) as Hvalid.
  revert Hu H14 Hf Hvalid.
  generalize (uuid_stringify (firstn 16 (<[8%nat := y]> (<[6%nat := x]> h)))).
  intros u Hu H14 Hf Hvalid.
  rewrite Hx5 in H14. change (hex_digit 5) with 53 in H14.
  split; [done|]. split; [done|]. split; [done|].
  unfold uuid_parse. rewrite Hvalid, Hf, (hex_pairs_hex _ Hb). eauto.
Qed.

(** X6. The [x-hub-signature] value computed on lines 122 to 127 is always
    [sha1=] followed by exactly 40 lower-case hexadecimal digits, for every
    secret and every payload, also those with characters outside ASCII; the
    passage through a [Buffer] leaves it as it is, and computing it changes
    nothing in the store. *)
Theorem signature_format (secret : jsstring) (p : ZenCrepesStateNode)
    (s : Store) (deps : list ZenCrepesDependency) :
  arrays s !! zc_dependencies p = Some deps →
  ∃ digest,
    signature secret p s = (inr (js "sha1=" ++ digest), s)
    ∧ digest
      = hex (hmac_sha1 (utf8_encode secret) (utf8_encode (json_node p deps)))
    ∧ length digest = 40%nat
    ∧ Forall (fun c => is_hex_lower c = true) digest.
Proof.
  intros Hr. eexists. split; [|split; [reflexivity|]].
  - unfold signature, JSON_stringify, Array_read. destruct s as [a e].
    mstep. cbv beta iota delta [arrays] in Hr. rewrite Hr. mstep.
    by rewrite utf8_encode_ascii, utf8_decode_ascii by apply signature_ascii.
  - split.
    + rewrite hex_length. unfold hmac_sha1. by rewrite sha1_length.
    + apply hex_lower. unfold hmac_sha1. apply sha1_bound.
Qed.

Lemma signature_format_witness :
  ∃ digest,
    signature [0xe9; 0xd83d; 0xde00; 0xdc00]
      (payload_of sample_world (sample_flags zeta_Alpha None) sample_report
         (js "not-an-id") 0 [0x4a; 0xe4; 0x68; 0x69; 0x61])
      (mkStore [[zeta; Alpha]] [])
    = (inr (js "sha1=" ++ digest), mkStore [[zeta; Alpha]] [])
    ∧ length digest = 40%nat.
Proof.
  destruct (signature_format [0xe9; 0xd83d; 0xde00; 0xdc00]
              (payload_of sample_world (sample_flags zeta_Alpha None)
                 sample_report (js "not-an-id") 0
                 [0x4a; 0xe4; 0x68; 0x69; 0x61])
              (mkStore [[zeta; Alpha]] []) [zeta; Alpha] eq_refl)
    as (digest & Hs & _ & Hl & _).
  exists digest. split; [exact Hs|exact Hl].
Defined.

(** ** Failures of [run] *)

(** X7. The failures of [run] come in the order of its lines: a report that
    cannot be read stops the run whatever the options are; with a report,
    dependencies that are not JSON stop it before the version file is
    looked at; then a version file that cannot be read, then one that
    cannot be decoded. In each case the lines of the report reader are all
    that was written, and no request was sent. *)
Theorem run_error_order (w : World) (args : Args) (flags : Flags) (s : Store) :
  ∃ result s',
    run w args flags s = (result, s')
    ∧ ((ingestReport w (f_type flags) (a_file args)).2 = None →
       result = inl ReportParseError
       ∧ effects s'
         = effects s
           ++ List.map Log (ingestReport w (f_type flags) (a_file args)).1)
    ∧ (is_Some (ingestReport w (f_type flags) (a_file args)).2 →
       (parse_dependencies w (f_dependencies flags) = None →
        result = inl DependenciesError
        ∧ effects s'
          = effects s
            ++ List.map Log (ingestReport w (f_type flags) (a_file args)).1)
       ∧ (is_Some (parse_dependencies w (f_dependencies flags)) →
          ∀ path,
            f_versionFilepath flags = Some path →
            (readFileSync w path = None →
             result = inl ManifestReadError
             ∧ effects s'
               = effects s
                 ++ List.map Log
                      (ingestReport w (f_type flags) (a_file args)).1)
            ∧ (∀ versionFile,
                 readFileSync w path = Some versionFile →
                 parse_versions w versionFile = None →
                 result = inl ManifestParseError
                 ∧ effects s'
                   = effects s
                     ++ List.map Log
                          (ingestReport w (f_type flags) (a_file args)).1))).
Proof.
  destruct (run_spec w args flags s) as (s' & Hrun).
  destruct (ingestReport w (f_type flags) (a_file args)) as [lines [report|]];
    cbn [fst snd] in *.
  2:{ destruct Hrun as [Hr He]. eexists _, s'. split; [exact Hr|].
      split; [done|]. by intros [? [=]]. }
  unfold resolve in Hrun.
  destruct (parse_dependencies w (f_dependencies flags)) as [explicit|].
  2:{ destruct Hrun as [Hr He]. eexists _, s'. split; [exact Hr|].
      split; [done|]. intros _. split; [done|]. by intros [? [=]]. }
  destruct (f_versionFilepath flags) as [path|].
  2:{ destruct Hrun as (r & _ & Hr & _). eexists _, s'. split; [exact Hr|].
      split; [done|]. intros _. split; [done|]. by intros _ path [=]. }
  destruct (readFileSync w path) as [versionFile|] eqn:Hfile.
  2:{ destruct Hrun as [Hr He]. eexists _, s'. split; [exact Hr|].
      split; [done|]. intros _. split; [done|]. intros _ path' [= <-].
      rewrite Hfile. split; [done|]. by intros versionFile [=]. }
  destruct (parse_versions w versionFile) as [m|] eqn:Hm.
  2:{ destruct Hrun as [Hr He]. eexists _, s'. split; [exact Hr|].
      split; [done|]. intros _. split; [done|]. intros _ path' [= <-].
      rewrite Hfile. split; [done|]. intros versionFile' [= <-].
      by rewrite Hm. }
  destruct Hrun as (r & _ & Hr & _). eexists _, s'. split; [exact Hr|].
  split; [done|]. intros _. split; [done|]. intros _ path' [= <-].
  rewrite Hfile. split; [done|]. intros versionFile' [= <-]. by rewrite Hm.
Qed.

Lemma run_error_order_witness :
  run (sample_world_with None) sample_args
    (sample_flags help_text_example (Some (js "missing.json"))) (mkStore [] [])
  = (inl ReportParseError, mkStore [] [Log (js "reading")])
  ∧ (run sample_world sample_args
       (sample_flags help_text_example (Some (js "missing.json")))
       (mkStore [] [])).1
    = inl DependenciesError
  ∧ (run sample_world sample_args
       (sample_flags zeta_Alpha (Some (js "missing.json"))) (mkStore [] [])).1
    = inl ManifestReadError
  ∧ (run (with_files sample_world (fun _ => Some (js "{"))
            (parse_versions sample_world))
       sample_args (sample_flags zeta_Alpha (Some (js "v.json")))
       (mkStore [] [])).1
    = inl ManifestParseError.
Proof.
  split; [|split; [|split]].
  - pose proof (run_error_order (sample_world_with None) sample_args
                  (sample_flags help_text_example (Some (js "missing.json")))
                  (mkStore [] []))
      as (result & [a e] & Hrun & H1 & _).
    destruct (H1 eq_refl) as [-> He]. rewrite Hrun.
    cbn in He. rewrite He.
    assert (a = []) as ->; [|done].
    by injection Hrun.
  - pose proof (run_error_order sample_world sample_args
                  (sample_flags help_text_example (Some (js "missing.json")))
                  (mkStore [] []))
      as (result & s' & Hrun & _ & H2).
    rewrite Hrun. cbn [fst].
    destruct (H2 (ltac:(by eexists))) as [H _]. by destruct (H eq_refl).
  - pose proof (run_error_order sample_world sample_args
                  (sample_flags zeta_Alpha (Some (js "missing.json")))
                  (mkStore [] []))
      as (result & s' & Hrun & _ & H2).
    rewrite Hrun. cbn [fst].
    destruct (H2 (ltac:(by eexists))) as [_ H].
    destruct (H (ltac:(by eexists)) (js "missing.json") eq_refl) as [H3 _].
    by destruct (H3 eq_refl).
  - pose proof (run_error_order
                  (with_files sample_world (fun _ => Some (js "{"))
                     (parse_versions sample_world))
                  sample_args (sample_flags zeta_Alpha (Some (js "v.json")))
                  (mkStore [] []))
      as (result & s' & Hrun & _ & H2).
    rewrite Hrun. cbn [fst].
    destruct (H2 (ltac:(by eexists))) as [_ H].
    destruct (H (ltac:(by eexists)) (js "v.json") eq_refl) as [_ H4].
    by destruct (H4 (js "{") eq_refl eq_refl).
Defined.

(** ** What [run] does not depend on *)

(** X8. Without the [versionFilepath] option, [run] neither reads nor
    decodes a version file: whatever [fs.readFileSync] and the decoding of
    a version file would answer, the result and the store are the same.
    (The report itself is read by [ingestReport], with or without the
    option.) *)
Theorem run_without_version_file (w : World)
    (files : jsstring → option bytes) (decoder : bytes → option UtilsVersions)
    (args : Args) (flags : Flags) (s : Store) :
  f_versionFilepath flags = None →
  run (with_files w files decoder) args flags s = run w args flags s.
Proof.
  intros Hnone.
  unfold run, preparePayload, fetchDependencies. rewrite Hnone. reflexivity.
Qed.

Lemma run_without_version_file_witness :
  run (with_files sample_world (fun _ => None) (fun _ => None)) sample_args
    (sample_flags zeta_Alpha None) (mkStore [] [])
  = run sample_world sample_args (sample_flags zeta_Alpha None) (mkStore [] []).
Proof.
  apply (run_without_version_file sample_world (fun _ => None) (fun _ => None)
           sample_args (sample_flags zeta_Alpha None) (mkStore [] [])).
  reflexivity.
Defined.

Lemma json_node_reference (w : World) (flags : Flags) (report : Report)
    (uuid v : jsstring) (r r' : nat) (deps : list ZenCrepesDependency) :
  json_node (payload_of w flags report uuid r v) deps
  = json_node (payload_of w flags report uuid r' v) deps.
Proof. reflexivity. Qed.

(** X9. The secret goes nowhere but into the signature header: with
    another secret, [run] writes the same lines to standard output and
    sends the same body to the same URL; only the headers of the request
    can differ. *)
Theorem run_secret_only_in_header (w : World) (args : Args) (flags : Flags)
    (s : Store) (secret : jsstring) :
  List.map without_headers (effects (run w (with_secret args secret) flags s).2)
  = List.map without_headers (effects (run w args flags s).2).
Proof.
  destruct (run_spec w args flags s) as (s1 & H1).
  destruct (run_spec w (with_secret args secret) flags s) as (s2 & H2).
  cbn [a_file a_payloadurl a_secret with_secret] in H2.
  destruct (ingestReport w (f_type flags) (a_file args)) as [lines [report|]];
    cbn [fst snd] in *.
  2:{ destruct H1 as [Hr1 He1], H2 as [Hr2 He2]. rewrite Hr1, Hr2.
      cbn [snd]. by rewrite He1, He2. }
  destruct (resolve w flags) as [e|[deps v]].
  { destruct H1 as [Hr1 He1], H2 as [Hr2 He2]. rewrite Hr1, Hr2.
    cbn [snd]. by rewrite He1, He2. }
  destruct H1 as (r1 & _ & Hr1 & He1), H2 as (r2 & _ & Hr2 & He2).
  cbv zeta in Hr1, He1, Hr2, He2. rewrite Hr1, Hr2. cbn [snd].
  rewrite He1, He2, !List.map_app. cbn [List.map without_headers].
  by rewrite (json_node_reference w flags report _ v r2 r1).
Qed.

(** ** The dependencies of the payload *)

(** X10. Nothing is dropped from, added to or merged in the dependencies
    of the payload: without a version file they are those of the command
    line, each as many times as given; with one they are those of the
    command line, those the file declares and the one of Jahia, so that a
    dependency given on both sides is listed twice. *)
Theorem payload_dependencies_complete (w : World) (args : Args) (flags : Flags)
    (s : Store) (report : Report) (explicit : list ZenCrepesDependency) :
  (ingestReport w (f_type flags) (a_file args)).2 = Some report →
  parse_dependencies w (f_dependencies flags) = Some explicit →
  (f_versionFilepath flags = None →
   ∃ p s' deps,
     preparePayload w args flags s = (inr p, s')
     ∧ arrays s' !! zc_dependencies p = Some deps
     ∧ deps ≡ₚ explicit)
  ∧ (∀ path versionFile m,
       f_versionFilepath flags = Some path →
       readFileSync w path = Some versionFile →
       parse_versions w versionFile = Some m →
       ∃ p s' deps,
         preparePayload w args flags s = (inr p, s')
         ∧ arrays s' !! zc_dependencies p = Some deps
         ∧ deps
           ≡ₚ explicit
              ++ mkDep (js "Jahia")
                   (v_jahia_version m ++ js "-" ++ v_jahia_build m)
                 :: v_dependencies m
         ∧ length deps
           = (length explicit + 1 + length (v_dependencies m))%nat
         ∧ mkDep (js "Jahia") (v_jahia_version m ++ js "-" ++ v_jahia_build m)
           ∈ deps).
Proof.
  intros Hi Hd.
  destruct (preparePayload_run w args flags s) as (s' & _ & Hp).
  rewrite Hi in Hp. unfold resolve in Hp. rewrite Hd in Hp. split.
  - intros Hnone. rewrite Hnone in Hp. destruct Hp as (r & Hp & Hr).
    eexists _, s', _. split; [exact Hp|]. split; [exact Hr|].
    apply sort_elements_Permutation.
  - intros path versionFile m Hpath Hfile Hm.
    rewrite Hpath, Hfile, Hm in Hp. destruct Hp as (r & Hp & Hr).
    eexists _, s', _. split; [exact Hp|]. split; [exact Hr|].
    assert (sort_deps
              (merged explicit (v_jahia_version m) (v_jahia_build m)
                 (v_dependencies m))
            ≡ₚ explicit
               ++ mkDep (js "Jahia")
                    (v_jahia_version m ++ js "-" ++ v_jahia_build m)
                  :: v_dependencies m) as Hperm
      by apply sort_elements_Permutation.
    split; [exact Hperm|]. split.
    + rewrite (Permutation_length Hperm), length_app. cbn [length]. lia.
    + rewrite Hperm, elem_of_app, elem_of_cons. auto.
Qed.

Lemma payload_dependencies_complete_witness :
  (∃ p s' deps,
     preparePayload sample_world sample_args (sample_flags zeta_Alpha None)
       (mkStore [] []) = (inr p, s')
     ∧ arrays s' !! zc_dependencies p = Some deps
     ∧ deps ≡ₚ [zeta; Alpha])
  ∧ (∃ p s' deps,
       preparePayload
         (with_files sample_world (readFileSync sample_world)
            (fun _ => Some (mkVersions (js "8") (js "1") (js "2") [Alpha])))
         sample_args (sample_flags zeta_Alpha (Some (js "v.json")))
         (mkStore [] []) = (inr p, s')
       ∧ arrays s' !! zc_dependencies p = Some deps
       ∧ deps ≡ₚ [zeta; Alpha; mkDep (js "Jahia") (js "8-1"); Alpha]
       ∧ length deps = 4%nat).
Proof.
  split.
  - apply (payload_dependencies_complete sample_world sample_args
             (sample_flags zeta_Alpha None) (mkStore [] []) sample_report
             [zeta; Alpha]); reflexivity.
  - destruct (proj2 (payload_dependencies_complete
                       (with_files sample_world (readFileSync sample_world)
                          (fun _ =>
                             Some (mkVersions (js "8") (js "1") (js "2")
                                     [Alpha])))
                       sample_args
                       (sample_flags zeta_Alpha (Some (js "v.json")))
                       (mkStore [] []) sample_report [zeta; Alpha]
                       eq_refl eq_refl)
                (js "v.json") (utf8_encode (json_versions sample_versions))
                (mkVersions (js "8") (js "1") (js "2") [Alpha])
                eq_refl eq_refl eq_refl)
      as (p & s' & deps & Hp & Hr & Hperm & Hlen & _).
    exists p, s', deps. auto.
Defined.

(** ** Delivery *)

(** X11. Once the payload is built, the outcome of [run] is the outcome of
    the transport: the run ends normally when the request goes through and
    with the transport's error when it throws. In both cases the JSON text
    of the payload is logged and then the request, whose body is that text,
    is attempted, as the last two effects of the run: the effects are the
    same whatever the transport answers. *)
Theorem run_delivery_outcome (w : World) (args : Args) (flags : Flags)
    (s : Store) (report : Report) (deps : list ZenCrepesDependency)
    (v : jsstring) :
  (ingestReport w (f_type flags) (a_file args)).2 = Some report →
  resolve w flags = inr (deps, v) →
  ∃ p text target headers body result s',
    (preparePayload w args flags s).1 = inr p
    ∧ text = json_node p (sort_deps deps)
    ∧ body = utf8_encode text
    ∧ run w args flags s = (result, s')
    ∧ effects s'
      = effects s
        ++ List.map Log (ingestReport w (f_type flags) (a_file args)).1
        ++ [Log text; Post target headers body]
    ∧ last (effects s') = Some (Post target headers body)
    ∧ result
      = (if request w target headers body then inr tt else inl DeliveryError)
    ∧ ∀ transport,
        effects (run (with_request w transport) args flags s).2 = effects s'.
Proof.
  intros Hi Hres.
  destruct (run_spec w args flags s) as (s' & Hrun).
  rewrite Hi, Hres in Hrun. destruct Hrun as (r & Hp & Hr & He).
  cbv zeta in Hp, Hr, He.
  eexists _, _, _, _, _, _, s'. split; [exact Hp|].
  split; [reflexivity|]. split; [reflexivity|]. split; [exact Hr|].
  split; [exact He|]. split.
  { rewrite He, !last_app. reflexivity. }
  split; [reflexivity|]. intros transport.
  destruct (run_spec (with_request w transport) args flags s) as (s2 & Hrun).
  cbn [ingestReport with_request] in Hrun. rewrite Hi in Hrun.
  change (resolve (with_request w transport) flags) with (resolve w flags)
    in Hrun.
  rewrite Hres in Hrun. destruct Hrun as (r2 & _ & Hr2 & He2).
  cbv zeta in Hr2, He2. rewrite Hr2. cbn [snd]. rewrite He2, He.
  change (payload_of (with_request w transport) flags report)
    with (payload_of w flags report).
  by rewrite (json_node_reference w flags report _ v r2 r).
Qed.

Lemma run_delivery_outcome_witness :
  ∃ text target headers s',
    run (with_request sample_world (fun _ _ _ => false)) sample_args
      (sample_flags zeta_Alpha None) (mkStore [] [])
    = (inl DeliveryError, s')
    ∧ effects s'
      = [Log (js "reading"); Log text;
         Post target headers (utf8_encode text)]
    ∧ effects (run sample_world sample_args (sample_flags zeta_Alpha None)
                 (mkStore [] [])).2
      = effects s'.
Proof.
  destruct (run_delivery_outcome
              (with_request sample_world (fun _ _ _ => false)) sample_args
              (sample_flags zeta_Alpha None) (mkStore [] []) sample_report
              [zeta; Alpha] (js "1.0.0") eq_refl eq_refl)
    as (p & text & target & headers & body & result & s' & _ & _ & Hb & Hrun
        & He & _ & Hres & Hall).
  exists text, target, headers, s'. rewrite Hrun.
  split; [by rewrite Hres|]. split; [by rewrite He, Hb|].
  exact (Hall (request sample_world)).
Defined.

(** ** More on the identifier *)

Lemma sort_insert_split {A : Type} (comparefn : A → A → Z) (x : A)
    (l : list A) :
  ∃ l1 l2, sort_insert comparefn x l = l1 ++ x :: l2 ∧ l = l1 ++ l2.
Proof.
  induction l as [|y l (l1 & l2 & Hins & Hl)]; simpl.
  { by exists [], []. }
  destruct (comparefn x y <=? 0)%Z.
  - by exists [], (y :: l).
  - exists (y :: l1), l2. by rewrite Hins, Hl at 1.
Qed.

Lemma flatten_deps_app (l1 l2 : list ZenCrepesDependency) :
  flatten_deps (l1 ++ l2) = flatten_deps l1 ++ flatten_deps l2.
Proof. apply flat_map_app. Qed.

(** X12. A dependency whose name and version hold no letter and no digit
    (empty strings, punctuation only) does not count in the identifier,
    wherever the sort puts it. *)
Theorem getId_ignores_blank_dependency (n v : jsstring)
    (d : ZenCrepesDependency) (l : list ZenCrepesDependency) :
  prepString (d_name d) = [] → prepString (d_version d) = [] →
  call_getId n v (d :: l) = call_getId n v l.
Proof.
  intros Hn Hv. apply call_getId_idStr. rewrite !idStr_of_flatten.
  cbn [sort_elements].
  destruct (sort_insert_split compareDeps d (sort_deps l))
    as (l1 & l2 & -> & ->).
  rewrite !flatten_deps_app. cbn [flatten_deps flat_map].
  fold (flatten_deps l2).
  rewrite !prepString_app, Hn, Hv. done.
Qed.

Lemma getId_ignores_blank_dependency_witness :
  call_getId (js "My-Mod") (js "1.0.0") [mkDep (js "-") (js ".."); zeta]
  = call_getId (js "My-Mod") (js "1.0.0") [zeta].
Proof.
  apply (getId_ignores_blank_dependency (js "My-Mod") (js "1.0.0")
           (mkDep (js "-") (js "..")) [zeta]); reflexivity.
Defined.

(** X13. The identifier of the payload is stable across runs: two runs
    whose names and versions normalize alike and whose resolved
    dependencies are the same up to their order give the same identifier,
    whatever the reports, the clocks, the URLs and the other options
    are. *)
Theorem run_identity_stable (w1 w2 : World) (args1 args2 : Args)
    (flags1 flags2 : Flags) (s1 s2 : Store) (report1 report2 : Report)
    (deps1 deps2 : list ZenCrepesDependency) (v1 v2 : jsstring) :
  (ingestReport w1 (f_type flags1) (a_file args1)).2 = Some report1 →
  (ingestReport w2 (f_type flags2) (a_file args2)).2 = Some report2 →
  resolve w1 flags1 = inr (deps1, v1) →
  resolve w2 flags2 = inr (deps2, v2) →
  prepString (f_name flags1) = prepString (f_name flags2) →
  prepString (f_version flags1) = prepString (f_version flags2) →
  deps1 ≡ₚ deps2 →
  ∃ p1 p2 s1' s2',
    preparePayload w1 args1 flags1 s1 = (inr p1, s1')
    ∧ preparePayload w2 args2 flags2 s2 = (inr p2, s2')
    ∧ zc_id p1 = zc_id p2.
Proof.
  intros Hi1 Hi2 Hr1 Hr2 Hn Hv Hp.
  destruct (preparePayload_run w1 args1 flags1 s1) as (s1' & _ & H1).
  destruct (preparePayload_run w2 args2 flags2 s2) as (s2' & _ & H2).
  rewrite Hi1, Hr1 in H1. rewrite Hi2, Hr2 in H2.
  destruct H1 as (r1 & H1 & _), H2 as (r2 & H2 & _).
  eexists _, _, s1', s2'. split; [exact H1|]. split; [exact H2|].
  cbn [zc_id payload_of]. unfold deriveId, idStr_of.
  by rewrite Hn, Hv, (sort_deps_perm deps1 deps2 Hp).
Qed.

Lemma run_identity_stable_witness :
  ∃ p1 p2 s1' s2',
    preparePayload sample_world sample_args (sample_flags zeta_Alpha None)
      (mkStore [] []) = (inr p1, s1')
    ∧ preparePayload
        (sample_world_with (Some (mkReport 1 0 (mkDouble (js "0.2")))))
        sample_args
        (mkFlags (js "json") (js "mymod") (js "100") zeta_Alpha
           (js "http://ci/42") None)
        (mkStore [[beta]] [Log (js "earlier")]) = (inr p2, s2')
    ∧ zc_id p1 = zc_id p2.
Proof.
  apply (run_identity_stable sample_world
           (sample_world_with (Some (mkReport 1 0 (mkDouble (js "0.2")))))
           sample_args sample_args (sample_flags zeta_Alpha None)
           (mkFlags (js "json") (js "mymod") (js "100") zeta_Alpha
              (js "http://ci/42") None)
           (mkStore [] []) (mkStore [[beta]] [Log (js "earlier")])
           sample_report (mkReport 1 0 (mkDouble (js "0.2")))
           [zeta; Alpha] [zeta; Alpha] (js "1.0.0") (js "100"));
    reflexivity.
Defined.

(** ** The command without its types *)




